(** * Atlas Psi framework: tier selection, crisis hysteresis, trajectory store

    A shallow embedding of the decision core of the repository:

    - [c_phase_runtime.py]: the crisis state machine [CPhaseRuntime];
    - [acp_runtime.py]: the tier selector [AdaptiveClarityProtocol];
    - [monitor.py]: the trajectory store [PsiMonitor];
    - [psi_engine.py]: the validated record [Scene] and its coherence metric.

    Numbers.  Python [float] values are embedded as exact rationals [Q]:
    comparisons against thresholds and the products and quotients of the
    source are the exact ones.  Python [int] counters start at zero and are
    only incremented or reset, so they are embedded as [nat].

    Effects.  Mutation of [self] is explicit state passing: a method returns
    the new object together with its result.  Readings of the wall clock
    ([time.time()], [datetime.utcnow()], [datetime.now()]) are explicit
    arguments.  Printing is not modelled. *)

From Stdlib Require Import QArith Qabs ZArith List String Ascii Bool Lia Lqa.
From Stdlib Require Import DecimalString.
From stdpp Require Import gmap strings.

Import ListNotations.
Local Open Scope string_scope.

(** ** Comparisons of Python floats *)

(** [x <= y] is [Qle_bool x y]; [x < y] is the negation of [y <= x]. *)
Definition Qlt_bool (x y : Q) : bool := negb (Qle_bool y x).

(** ** The crisis state machine ([c_phase_runtime.py]) *)

Module CPhase.

(** [PsiState]: the coherence reading handed to the machine each turn. *)
Record PsiState := mkPsiState {
  value : Q;
  gradient : Q
}.

(** The two readings of [datetime.utcnow()] made by [_make_alert]:
    the text of [.timestamp()] and the text of [.isoformat()]. *)
Record UtcNow := mkUtcNow {
  utc_timestamp : string;
  utc_isoformat : string
}.

(** [CrisisAlert], with the dataclass defaults as the last four fields. *)
Record CrisisAlert := mkCrisisAlert {
  alert_id : string;
  timestamp : string;
  psi : Q;
  dpsi_dt : Q;
  reason : string;
  autonomous_action : bool;
  human_required : bool;
  consent_verified : bool;
  reviewed_by_human : bool
}.

(** The mutable fields of a [CPhaseRuntime] object. *)
Record CPhaseRuntime := mkCPhaseRuntime {
  crisis_turns : nat;
  recovery_turns : nat;
  active : bool;
  _turn_counter : nat
}.

Definition CRISIS_THRESHOLD : Q := 0.05.
Definition EXIT_THRESHOLD : Q := 0.10.
Definition MIN_SUSTAINED : nat := 2.
Definition RESTORE_TURNS : nat := 3.

(** [CPhaseRuntime.__init__]. *)
Definition init : CPhaseRuntime :=
  {| crisis_turns := 0; recovery_turns := 0; active := false; _turn_counter := 0 |}.

(** [CPhaseRuntime._make_alert]. *)
Definition _make_alert (p : PsiState) (why : string) (now : UtcNow) : CrisisAlert :=
  {| alert_id := "ALERT-" ++ utc_timestamp now;
     timestamp := utc_isoformat now;
     psi := value p;
     dpsi_dt := gradient p;
     reason := why;
     autonomous_action := false;
     human_required := true;
     consent_verified := false;
     reviewed_by_human := false |}.

(** The guard of [detect]: [hard_flag or psi.value < CRISIS_THRESHOLD]. *)
Definition crisis_tick (p : PsiState) (hard_flag : bool) : bool :=
  hard_flag || Qlt_bool (value p) CRISIS_THRESHOLD.

(** [CPhaseRuntime.detect]. *)
Definition detect (self : CPhaseRuntime) (p : PsiState) (hard_flag : bool)
    (now : UtcNow) : CPhaseRuntime * option CrisisAlert :=
  if crisis_tick p hard_flag then
    let self1 :=
      {| crisis_turns := crisis_turns self + 1;
         recovery_turns := recovery_turns self;
         active := active self;
         _turn_counter := _turn_counter self |} in
    if (MIN_SUSTAINED <=? crisis_turns self1)%nat && negb (active self1) then
      ({| crisis_turns := crisis_turns self1;
          recovery_turns := recovery_turns self1;
          active := true;
          _turn_counter := _turn_counter self1 |},
       Some (_make_alert p "Ψ below threshold or hard flag" now))
    else (self1, None)
  else
    ({| crisis_turns := 0;
        recovery_turns := recovery_turns self;
        active := active self;
        _turn_counter := _turn_counter self |}, None).

(** The 4-beat containment sequence of [deescalate]. *)
Definition beats : list string :=
  [ "GROUND → 'I’m here with you. Breathe—slow in, slow out.'";
    "VALIDATE → 'This feels heavy. That’s understandable.'";
    "TINY CONTROL → 'Choose one: sit · drink water · step outside.'";
    "BRIDGE TO CARE → 'There’s a 24/7 counselor at 988. Want me to connect you?'" ].

(** [CPhaseRuntime.deescalate]: [beats[self._turn_counter % 4]], then the
    cursor moves on.  The index is below 4, so the lookup never fails. *)
Definition deescalate (self : CPhaseRuntime) : CPhaseRuntime * string :=
  let text := nth (_turn_counter self mod 4) beats "" in
  ({| crisis_turns := crisis_turns self;
      recovery_turns := recovery_turns self;
      active := active self;
      _turn_counter := _turn_counter self + 1 |}, text).

(** [CPhaseRuntime.check_exit]. *)
Definition check_exit (self : CPhaseRuntime) (p : PsiState) (hard_flag : bool)
    : CPhaseRuntime * bool :=
  if hard_flag then
    ({| crisis_turns := crisis_turns self;
        recovery_turns := 0;
        active := active self;
        _turn_counter := _turn_counter self |}, false)
  else if Qle_bool EXIT_THRESHOLD (value p) then
    let self1 :=
      {| crisis_turns := crisis_turns self;
         recovery_turns := recovery_turns self + 1;
         active := active self;
         _turn_counter := _turn_counter self |} in
    if (RESTORE_TURNS <=? recovery_turns self1)%nat then
      ({| crisis_turns := 0; recovery_turns := 0; active := false;
          _turn_counter := 0 |}, true)
    else (self1, false)
  else
    ({| crisis_turns := crisis_turns self;
        recovery_turns := 0;
        active := active self;
        _turn_counter := _turn_counter self |}, false).

(** The dict returned by [step]: key ["alert"] is present only on entry
    ([None] here is the absent key), key ["message"] is always present and
    may hold Python's [None]. *)
Record StepResult := mkStepResult {
  tier : string;
  alert : option CrisisAlert;
  message : option string
}.

Definition STABILITY_RESTORED : string :=
  "Stability restored. Resuming normal reasoning.".

(** [CPhaseRuntime.step]. *)
Definition step (self : CPhaseRuntime) (p : PsiState) (hard_flag : bool)
    (now : UtcNow) : CPhaseRuntime * StepResult :=
  let '(self1, al) := detect self p hard_flag now in
  let tier0 := if active self1 then "SAFETY" else "NORMAL" in
  match al with
  | Some a =>
      let '(self2, msg) := deescalate self1 in
      (self2, {| tier := tier0; alert := Some a; message := Some msg |})
  | None =>
      if active self1 then
        let '(self2, msg) := deescalate self1 in
        let '(self3, leaving) := check_exit self2 p hard_flag in
        if leaving then
          (self3, {| tier := "COHERENCE"; alert := None;
                     message := Some STABILITY_RESTORED |})
        else
          (self3, {| tier := tier0; alert := None; message := Some msg |})
      else
        (self1, {| tier := tier0; alert := None; message := None |})
  end.

(** One conversational turn as the caller supplies it. *)
Record Turn := mkTurn {
  t_psi : PsiState;
  t_hard_flag : bool;
  t_now : UtcNow
}.

Definition step_turn (self : CPhaseRuntime) (t : Turn) : CPhaseRuntime * StepResult :=
  step self (t_psi t) (t_hard_flag t) (t_now t).

Definition tick (t : Turn) : bool := crisis_tick (t_psi t) (t_hard_flag t).

(** The driver loop [for val in timeline: output = runtime.step(psi)]:
    the outputs in order, and the machine after the last turn. *)
Fixpoint run (self : CPhaseRuntime) (turns : list Turn)
    : CPhaseRuntime * list StepResult :=
  match turns with
  | [] => (self, [])
  | t :: rest =>
      let '(self1, r) := step_turn self t in
      let '(self2, rs) := run self1 rest in
      (self2, r :: rs)
  end.

Definition final (self : CPhaseRuntime) (turns : list Turn) : CPhaseRuntime :=
  fst (run self turns).

Definition outputs (self : CPhaseRuntime) (turns : list Turn) : list StepResult :=
  snd (run self turns).

(** The machine as it stands when turn [n] of [turns] begins. *)
Definition before (turns : list Turn) (n : nat) : CPhaseRuntime :=
  final init (take n turns).

Definition emits (r : StepResult) : bool :=
  match alert r with Some _ => true | None => false end.

Definition exits (r : StepResult) : bool := String.eqb (tier r) "COHERENCE".

Definition count_alerts (rs : list StepResult) : nat :=
  length (filter (fun r => emits r = true) rs).

(** A turn on which the machine was active and left the crisis state. *)
Definition count_exits (rs : list StepResult) : nat :=
  length (filter (fun r => exits r = true) rs).

(** The demo block: [timeline], and one [PsiState(value=val,
    gradient=val - 0.15)] per reading, stepped with the default
    [hard_flag=False]. *)
Definition timeline : list Q := [0.32; 0.18; 0.07; 0.06; 0.08; 0.12; 0.16]%Q.

Definition readings (now : UtcNow) (vals : list Q) : list Turn :=
  map (fun val =>
         {| t_psi := {| value := val; gradient := (val - 0.15)%Q |};
            t_hard_flag := false;
            t_now := now |}) vals.

Definition demo_turns (now : UtcNow) : list Turn := readings now timeline.

(** A second timeline for the same loop: a lone dip, a collapse, a
    recovery and a relapse. *)
Definition relapse : list Q :=
  [0.01; 0.2; 0.01; 0.01; 0.2; 0.2; 0.2; 0.01; 0.01]%Q.

(** What holds of every machine that [step] can produce from a fresh one:
    at rest the recovery counter and the beat cursor are zero, and the
    recovery counter stays below [RESTORE_TURNS]. *)
Definition at_rest (s : CPhaseRuntime) : Prop :=
  (active s = false -> recovery_turns s = 0 /\ _turn_counter s = 0) /\
  recovery_turns s < RESTORE_TURNS.

(** The tests of [check_exit] that let a turn count towards recovery: no
    hard flag and [psi.value >= EXIT_THRESHOLD]. *)
Definition recovery_tick (p : PsiState) (hard_flag : bool) : bool :=
  negb hard_flag && Qle_bool EXIT_THRESHOLD (value p).

Definition recovers (t : Turn) : bool := recovery_tick (t_psi t) (t_hard_flag t).

(** A long collapse: one reading above the threshold, then eight below. *)
Definition collapse : list Q :=
  [0.3; 0.01; 0.02; 0.03; 0.01; 0.02; 0.03; 0.01; 0.02]%Q.

(** Turns with the hard flag set, for the same loop. *)
Definition flagged (now : UtcNow) (vals : list Q) : list Turn :=
  map (fun val =>
         {| t_psi := {| value := val; gradient := 0%Q |};
            t_hard_flag := true;
            t_now := now |}) vals.

(** A sample reading of the UTC clock. *)
Definition epoch : UtcNow :=
  {| utc_timestamp := "0.0"; utc_isoformat := "1970-01-01T00:00:00" |}.

(** What [step] returns while nothing is happening. *)
Definition quiet : StepResult :=
  {| tier := "NORMAL"; alert := None; message := None |}.

End CPhase.

(** ** Python number formatting ([f"{x:.3f}"], [f"{x:+.3f}"], [f"{x:.2f}"]) *)

Module PyFormat.

(** Nearest integer to a non-negative rational, ties to even. *)
Definition round_half_even (q : Q) : Z :=
  let n := Qnum q in
  let d := Z.pos (Qden q) in
  let fl := (n / d)%Z in
  let r2 := (2 * (n mod d))%Z in
  if (r2 <? d)%Z then fl
  else if (d <? r2)%Z then (fl + 1)%Z
  else if Z.even fl then fl else (fl + 1)%Z.

Definition digit_char (d : Z) : ascii :=
  ascii_of_nat (48 + Z.to_nat d).

(** The [k] low decimal digits of [m], most significant first, before [acc]. *)
Fixpoint low_digits (k : nat) (m : Z) (acc : string) : string :=
  match k with
  | O => acc
  | S k' => low_digits k' (m / 10)%Z (String (digit_char (m mod 10)%Z) acc)
  end.

(** Decimal text of a natural number, without leading zeros (["0"] for 0). *)
Definition nat_digits (m : Z) : string :=
  NilZero.string_of_uint (N.to_uint (Z.to_N m)).

(** Fixed-point text with [prec] fractional digits.  A negative argument
    keeps its minus sign even when it rounds to zero, as in Python;
    [plus] is the [+] flag.  Python rounds the binary value of the float;
    on the rational the text is the same unless the rational is an exact
    tie at the last digit, which none of the values formatted below is. *)
Definition format_f (plus : bool) (prec : nat) (x : Q) : string :=
  let scale := (10 ^ Z.of_nat prec)%Z in
  let m := round_half_even (Qabs x * inject_Z scale) in
  let sign :=
    if Qlt_bool x 0 then "-" else if plus then "+" else "" in
  let frac :=
    match prec with
    | O => ""
    | _ => String "." (low_digits prec (m mod scale)%Z "")
    end in
  sign ++ nat_digits (m / scale)%Z ++ frac.

(** [sep.join(parts)]. *)
Fixpoint join (sep : string) (parts : list string) : string :=
  match parts with
  | [] => ""
  | [p] => p
  | p :: rest => p ++ sep ++ join sep rest
  end.

(** [needle in hay]. *)
Fixpoint contains (needle hay : string) : bool :=
  String.prefix needle hay ||
  match hay with
  | EmptyString => false
  | String _ rest => contains needle rest
  end.

End PyFormat.

(** ** The tier selector ([acp_runtime.py]) *)

Module ACP.

(** [class Tier(str, Enum)]. *)
Inductive Tier := SAFETY | COHERENCE | TRUTH.

Definition Tier_value (t : Tier) : string :=
  match t with
  | SAFETY => "SAFETY"
  | COHERENCE => "COHERENCE"
  | TRUTH => "TRUTH"
  end.

(** [ACPConfig] and its defaults. *)
Record ACPConfig := mkACPConfig {
  crisis_threshold : Q;
  caution_band : Q;
  rapid_decline : Q;
  min_c_phase_hold : Q
}.

Definition ACPConfig_default : ACPConfig :=
  {| crisis_threshold := 0.05;
     caution_band := 0.15;
     rapid_decline := -0.50;
     min_c_phase_hold := 0.10 |}.

(** [AdaptiveClarityProtocol.__init__]: [self.cfg = config or ACPConfig()]. *)
Definition new (config : option ACPConfig) : ACPConfig :=
  match config with
  | Some c => c
  | None => ACPConfig_default
  end.

(** [components: Dict[str, float]] is a finite map; only [.get] is used. *)
Abbreviation Components := (gmap string Q).

(** [hard_flags: Dict[str, bool]]: iteration order is insertion order and
    shows in the rationale, so the dict is the list of its items (keys
    pairwise distinct). *)
Abbreviation Flags := (list (string * bool)).

(** [flags.get(key, dflt)]. *)
Fixpoint flags_get (key : string) (dflt : bool) (flags : Flags) : bool :=
  match flags with
  | [] => dflt
  | (k, v) :: rest => if String.eqb k key then v else flags_get key dflt rest
  end.

(** [comps.get(key, dflt)]. *)
Definition comps_get (key : string) (dflt : Q) (comps : Components) : Q :=
  match comps !! key with
  | Some v => v
  | None => dflt
  end.

(** [any(flags.values())]. *)
Definition any_flag (flags : Flags) : bool := existsb snd flags.

(** [[k for k, v in flags.items() if v]]. *)
Definition tripped (flags : Flags) : list string :=
  map fst (List.filter snd flags).

(** [AdaptiveClarityProtocol._needs_safety]. *)
Definition _needs_safety (cfg : ACPConfig) (psi dpsi_dt : Q)
    (comps : Components) (flags : Flags) : bool :=
  if flags_get "explicit_self_harm" false flags then true
  else if Qlt_bool psi (crisis_threshold cfg) then true
  else
    let rapid := Qle_bool dpsi_dt (rapid_decline cfg) in
    let low_p := Qlt_bool (comps_get "P_align" 1.0 comps) 0.10 in
    let low_i := Qlt_bool (comps_get "I" 1.0 comps) 0.10 in
    if rapid && (low_p || low_i) then true else false.

(** [AdaptiveClarityProtocol._needs_coherence]. *)
Definition _needs_coherence (cfg : ACPConfig) (psi dpsi_dt : Q)
    (comps : Components) (flags : Flags) : bool :=
  if flags_get "explicit_self_harm" false flags then false
  else if Qle_bool (crisis_threshold cfg) psi && Qlt_bool psi (caution_band cfg)
  then true
  else if Qle_bool (caution_band cfg) psi
          && Qlt_bool (comps_get "P_align" 1.0 comps) 0.20
          && Qlt_bool dpsi_dt 0.0
  then true
  else false.

(** Python's [min(a, b)] and [max(a, b)]: the first argument wins ties. *)
Definition py_min (a b : Q) : Q := if Qlt_bool b a then b else a.
Definition py_max (a b : Q) : Q := if Qlt_bool a b then b else a.

(** [AdaptiveClarityProtocol._clamp01]. *)
Definition _clamp01 (x : Q) : Q := py_max 0.0 (py_min 1.0 x).

(** [AdaptiveClarityProtocol._compose_rationale]. *)
Definition _compose_rationale (tier : Tier) (psi dpsi_dt : Q)
    (comps : Components) (flags : Flags) (extra : string) : string :=
  let e := _clamp01 (comps_get "E" 0.0 comps) in
  let i := _clamp01 (comps_get "I" 0.0 comps) in
  let o := _clamp01 (comps_get "O" 0.0 comps) in
  let p := _clamp01 (comps_get "P_align" 0.0 comps) in
  let parts :=
    [ "Tier=" ++ Tier_value tier;
      "Ψ=" ++ PyFormat.format_f false 3 psi;
      "dΨ/dt=" ++ PyFormat.format_f true 3 dpsi_dt;
      "E=" ++ PyFormat.format_f false 2 e
        ++ ", I=" ++ PyFormat.format_f false 2 i
        ++ ", O=" ++ PyFormat.format_f false 2 o
        ++ ", P_align=" ++ PyFormat.format_f false 2 p ] in
  let parts :=
    if any_flag flags
    then app parts ["flags=" ++ PyFormat.join "," (tripped flags)]
    else parts in
  PyFormat.join " | " (app parts [extra]).

(** The ["metrics"] entry of the audit bundle. *)
Record Metrics := mkMetrics {
  m_psi : Q;
  m_dpsi_dt : Q;
  m_E : Q;
  m_I : Q;
  m_O : Q;
  m_P_align : Q
}.

(** The dict built by [_signals_dict]; ["thresholds"] echoes the four
    configuration fields. *)
Record Signals := mkSignals {
  context : string;
  metrics : Metrics;
  thresholds : ACPConfig;
  flags_echo : Flags;
  selected_tier : string
}.

(** [context_tag or "unspecified"]: [None] and the empty string are falsy. *)
Definition context_or_unspecified (context_tag : option string) : string :=
  match context_tag with
  | None => "unspecified"
  | Some "" => "unspecified"
  | Some tag => tag
  end.

(** [AdaptiveClarityProtocol._signals_dict]. *)
Definition _signals_dict (cfg : ACPConfig) (psi dpsi_dt : Q)
    (comps : Components) (flags : Flags) (context_tag : option string)
    (tier : Tier) : Signals :=
  {| context := context_or_unspecified context_tag;
     metrics :=
       {| m_psi := psi;
          m_dpsi_dt := dpsi_dt;
          m_E := _clamp01 (comps_get "E" 0.0 comps);
          m_I := _clamp01 (comps_get "I" 0.0 comps);
          m_O := _clamp01 (comps_get "O" 0.0 comps);
          m_P_align := _clamp01 (comps_get "P_align" 0.0 comps) |};
     thresholds :=
       {| crisis_threshold := crisis_threshold cfg;
          caution_band := caution_band cfg;
          rapid_decline := rapid_decline cfg;
          min_c_phase_hold := min_c_phase_hold cfg |};
     flags_echo := flags;
     selected_tier := Tier_value tier |}.

(** The ["prompts"] dict of a decision. *)
Record Prompts := mkPrompts {
  ui_text : string;
  assistant_hint : string;
  followup_hint : string
}.

(** [ACPDecision]. *)
Record ACPDecision := mkACPDecision {
  tier : Tier;
  rationale : string;
  prompts : Prompts;
  signals : Signals;
  autonomous_action : bool
}.

Definition nl : string := String (ascii_of_nat 10) "".

Definition SAFETY_EXTRA : string :=
  "Crisis threshold or explicit risk triggered. Normal reasoning suspended.".
Definition COHERENCE_EXTRA : string :=
  "Low/stable Ψ or falling purpose alignment indicates we should rehabilitate pattern before facts.".
Definition TRUTH_EXTRA : string :=
  "Ψ above caution band with no hard-risk flags; proceed with normal reasoning.".

(** [AdaptiveClarityProtocol._make_safety_decision]. *)
Definition _make_safety_decision (cfg : ACPConfig) (psi dpsi_dt : Q)
    (comps : Components) (flags : Flags) (context_tag : option string)
    : ACPDecision :=
  let ui :=
    "I'm here with you. Let’s slow the pace together." ++ nl ++
    "• Inhale 4, hold 2, exhale 6 — twice." ++ nl ++
    "• Tiny step (pick one): sip water • change posture • look at something steady." ++ nl ++
    "If you want, I can bring in a 24/7 counselor (988 / Crisis Text Line)." in
  let hint :=
    "Containment mode: keep sentences short, name feelings without elaboration, " ++
    "present two concrete micro-choices, and gently offer human help. " ++
    "Do not argue facts or provide complex instructions." in
  let followup :=
    "Offer the bridge again with consent. If declined, acknowledge and keep the pace slow. " ++
    "Wait for Ψ ≥ " ++ PyFormat.format_f false 2 (min_c_phase_hold cfg) ++
    " sustained before restoring normal reasoning." in
  {| tier := SAFETY;
     rationale := _compose_rationale SAFETY psi dpsi_dt comps flags SAFETY_EXTRA;
     prompts := {| ui_text := ui; assistant_hint := hint; followup_hint := followup |};
     signals := _signals_dict cfg psi dpsi_dt comps flags context_tag SAFETY;
     autonomous_action := false |}.

(** [AdaptiveClarityProtocol._make_coherence_decision]. *)
Definition _make_coherence_decision (cfg : ACPConfig) (psi dpsi_dt : Q)
    (comps : Components) (flags : Flags) (context_tag : option string)
    : ACPDecision :=
  let ui :=
    "Let’s steady the pattern before we go deeper. Two quick options:" ++ nl ++
    "1) Clarify the goal in one line. 2) List the next two small steps." ++ nl ++
    "We’ll resume full detail once the path feels aligned." in
  let hint :=
    "Stabilize purpose and structure. Reflect the user’s goal in ≤12 words, " ++
    "surface one contradiction or missing piece, and offer a fork of two simple next steps. " ++
    "Avoid long lectures; keep momentum intentional." in
  let followup :=
    "Once P_align and I rise together (and dΨ/dt ≥ 0), propose returning to TRUTH tier." in
  {| tier := COHERENCE;
     rationale := _compose_rationale COHERENCE psi dpsi_dt comps flags COHERENCE_EXTRA;
     prompts := {| ui_text := ui; assistant_hint := hint; followup_hint := followup |};
     signals := _signals_dict cfg psi dpsi_dt comps flags context_tag COHERENCE;
     autonomous_action := false |}.

(** [AdaptiveClarityProtocol._make_truth_decision]. *)
Definition _make_truth_decision (cfg : ACPConfig) (psi dpsi_dt : Q)
    (comps : Components) (flags : Flags) (context_tag : option string)
    : ACPDecision :=
  let ui :=
    "Ready for straight answers. Ask directly, and I’ll be concise and precise." in
  let hint :=
    "Deliver facts. Cite sources when available. Keep paragraphs tight, " ++
    "offer one alternative view if relevant, and provide a clean next-step." in
  let followup :=
    "Invite a quick sanity-check: ‘Want me to zoom out if this drifts off your goal?’" in
  {| tier := TRUTH;
     rationale := _compose_rationale TRUTH psi dpsi_dt comps flags TRUTH_EXTRA;
     prompts := {| ui_text := ui; assistant_hint := hint; followup_hint := followup |};
     signals := _signals_dict cfg psi dpsi_dt comps flags context_tag TRUTH;
     autonomous_action := false |}.

(** [AdaptiveClarityProtocol.decide]; [hard_flags or {}] turns [None] into
    the empty dict. *)
Definition decide (cfg : ACPConfig) (psi dpsi_dt : Q) (components : Components)
    (hard_flags : option Flags) (context_tag : option string) : ACPDecision :=
  let hard_flags := match hard_flags with Some f => f | None => [] end in
  let safe_needed := _needs_safety cfg psi dpsi_dt components hard_flags in
  let coh_needed := _needs_coherence cfg psi dpsi_dt components hard_flags in
  if safe_needed then
    _make_safety_decision cfg psi dpsi_dt components hard_flags context_tag
  else if coh_needed then
    _make_coherence_decision cfg psi dpsi_dt components hard_flags context_tag
  else
    _make_truth_decision cfg psi dpsi_dt components hard_flags context_tag.

(** The precedence of the tiers: SAFETY over COHERENCE over TRUTH. *)
Definition severity (t : Tier) : nat :=
  match t with
  | SAFETY => 2
  | COHERENCE => 1
  | TRUTH => 0
  end.

(** Sample 3 of the demo block: the components of the turn with
    [psi = 0.07] and [dpsi_dt = -0.60]. *)
Definition sample3 : Components :=
  <["E" := 0.80%Q]> (<["I" := 0.08%Q]> (<["O" := 0.45%Q]>
    (<["P_align" := 0.09%Q]> ∅))).

(** Components of a steady turn: [E=0.9, I=0.9, O=0.8, P_align=0.9],
    whose product is 0.5832. *)
Definition steady : Components :=
  <["E" := 0.9%Q]> (<["I" := 0.9%Q]> (<["O" := 0.8%Q]>
    (<["P_align" := 0.9%Q]> ∅))).


End ACP.

(** ** The trajectory store ([monitor.py]) *)

Module Monitor.

(** A [meta] dict; its content is never inspected. *)
Abbreviation Meta := (list (string * string)).

Record Message := mkMessage {
  msg_timestamp : Q;
  speaker : string;
  text : string;
  meta : Meta
}.

Record PsiSnapshot := mkPsiSnapshot {
  timestamp : Q;
  E : Q;
  I : Q;
  O : Q;
  P_align : Q;
  psi : Q;
  dpsi_dt : option Q
}.

(** The dict appended to [self.alerts] by [_alert]. *)
Record AlertRecord := mkAlertRecord {
  a_time : string;
  a_level : string;
  a_psi : Q;
  a_E : Q;
  a_I : Q;
  a_O : Q;
  a_P_align : Q;
  a_text : string
}.

(** The fields of a [PsiMonitor].  The optional [alert_callback] and the
    [print] of [_alert] only send the record out; they are not modelled. *)
Record PsiMonitor := mkPsiMonitor {
  threshold : Q;
  history : list Message;
  snapshots : list PsiSnapshot;
  alerts : list AlertRecord;
  start_time : Q
}.

(** What one call reads from the clock: [time.time()] in [update] and
    [datetime.now().isoformat()] in [_alert]. *)
Record Clock := mkClock {
  time_time : Q;
  datetime_now : string
}.

(** [PsiMonitor.__init__]; [time_now] is the reading of [time.time()]. *)
Definition new (threshold : Q) (time_now : Q) : PsiMonitor :=
  {| threshold := threshold; history := []; snapshots := []; alerts := [];
     start_time := time_now |}.

(** [PsiMonitor._alert]. *)
Definition _alert (self : PsiMonitor) (snap : PsiSnapshot) (txt : string)
    (clk : Clock) : PsiMonitor :=
  let level :=
    if Qlt_bool (psi snap) 0.005 then "EXTREME"
    else if Qlt_bool (psi snap) 0.02 then "SEVERE"
    else "DARK_NIGHT" in
  let record :=
    {| a_time := datetime_now clk; a_level := level; a_psi := psi snap;
       a_E := E snap; a_I := I snap; a_O := O snap; a_P_align := P_align snap;
       a_text := txt |} in
  {| threshold := threshold self;
     history := history self;
     snapshots := snapshots self;
     alerts := app (alerts self) [record];
     start_time := start_time self |}.

(** The derivative computed by [update] against [self.snapshots[-1]]. *)
Definition backward_difference (prev : option PsiSnapshot) (now psi_now : Q)
    : option Q :=
  match prev with
  | Some prev =>
      let dt := (now - timestamp prev)%Q in
      if Qlt_bool 0 dt then Some ((psi_now - psi prev) / dt)%Q else None
  | None => None
  end.

(** [PsiMonitor.update]: the new monitor and the returned [psi]. *)
Definition update (self : PsiMonitor) (txt : string) (E I O P_align : Q)
    (meta : option Meta) (clk : Clock) : PsiMonitor * Q :=
  let now := (time_time clk - start_time self)%Q in
  let history1 :=
    app (history self)
        [ {| msg_timestamp := now; speaker := "user"; text := txt;
             meta := match meta with Some m => m | None => [] end |} ] in
  let psi := (E * I * O * P_align)%Q in
  let dpsi := backward_difference (last (snapshots self)) now psi in
  let snap :=
    {| timestamp := now; E := E; I := I; O := O; P_align := P_align;
       psi := psi; dpsi_dt := dpsi |} in
  let self1 :=
    {| threshold := threshold self;
       history := history1;
       snapshots := app (snapshots self) [snap];
       alerts := alerts self;
       start_time := start_time self |} in
  if Qlt_bool psi (threshold self)
  then (_alert self1 snap txt clk, psi)
  else (self1, psi).

(** The arguments of one [update] call together with its clock readings. *)
Record Call := mkCall {
  c_text : string;
  c_E : Q;
  c_I : Q;
  c_O : Q;
  c_P_align : Q;
  c_meta : option Meta;
  c_clock : Clock
}.

Definition update_call (self : PsiMonitor) (c : Call) : PsiMonitor :=
  fst (update self (c_text c) (c_E c) (c_I c) (c_O c) (c_P_align c)
              (c_meta c) (c_clock c)).

(** A session: the calls applied in order. *)
Definition session (self : PsiMonitor) (calls : list Call) : PsiMonitor :=
  fold_left update_call calls self.

(** The level chosen by [_alert]. *)
Definition level_of (psi : Q) : string :=
  if Qlt_bool psi 0.005 then "EXTREME"
  else if Qlt_bool psi 0.02 then "SEVERE"
  else "DARK_NIGHT".

(** The psi that [update] computes for a call. *)
Definition call_psi (c : Call) : Q :=
  (c_E c * c_I c * c_O c * c_P_align c)%Q.

(** The dict returned by [status]: [{"state": "idle", "psi": None}], or
    the five entries of the active state. *)
Inductive Status :=
  | Idle
  | Running (messages : nat) (psi : Q) (below_threshold : bool) (alerts : nat).

(** [PsiMonitor.status]. *)
Definition status (self : PsiMonitor) : Status :=
  match last (snapshots self) with
  | None => Idle
  | Some s =>
      Running (length (history self)) (psi s)
              (Qlt_bool (psi s) (threshold self)) (length (alerts self))
  end.

(** A history whose derivatives are the backward differences of
    neighbours. *)
Definition linked (ss : list PsiSnapshot) : Prop :=
  (forall s, ss !! 0 = Some s -> dpsi_dt s = None) /\
  (forall n a b,
     ss !! n = Some a -> ss !! S n = Some b ->
     ((0 < timestamp b - timestamp a)%Q ->
      dpsi_dt b =
        Some ((psi b - psi a) / (timestamp b - timestamp a))%Q) /\
     ((timestamp b - timestamp a <= 0)%Q -> dpsi_dt b = None)).

(** The demo block of [monitor.py] with sample clock readings; the
    third call repeats the clock of the second. *)
Definition demo_calls : list Call :=
  [ mkCall "Baseline" 0.6 0.7 0.8 0.9 None (mkClock 101 "t1");
    mkCall "Dark Night begins" 0.3 0.4 0.2 0.05 None (mkClock 103 "t2");
    mkCall "Recovering" 0.8 0.9 0.9 0.9 None (mkClock 103 "t3") ]%Q.

End Monitor.

(** ** The validated scene record ([psi_engine.py]) *)

Module Engine.

Record Scene := mkScene {
  scene_number : Z;
  timestamp : Q;
  title : string;
  energy : Q;
  information : Q;
  order : Q;
  p_align : Q;
  characters : option (list string);
  location : string;
  notes : string
}.

(** [Scene.calculate_psi]. *)
Definition calculate_psi (self : Scene) : Q :=
  (energy self * information self * order self * p_align self)%Q.

(** [ValueError(f"{name} must be between 0–1 (got {val}).")], kept as the
    field name and the offending value. *)
Inductive ValueError := mkValueError (name : string) (val : Q).

(** The test of [__post_init__]: [not 0.0 <= val <= 1.0]. *)
Definition out_of_unit (val : Q) : bool :=
  negb (Qle_bool 0.0 val && Qle_bool val 1.0).

(** The loop of [__post_init__] over the (name, value) pairs: the first
    value out of range raises. *)
Fixpoint first_invalid (fields : list (string * Q)) : option ValueError :=
  match fields with
  | [] => None
  | (name, val) :: rest =>
      if out_of_unit val then Some (mkValueError name val)
      else first_invalid rest
  end.

(** [Scene.__post_init__]: [None] when it returns, the error when it raises. *)
Definition __post_init__ (self : Scene) : option ValueError :=
  first_invalid
    [ ("energy", energy self); ("information", information self);
      ("order", order self); ("p_align", p_align self) ].

(** The dataclass constructor: the fields are stored, then
    [__post_init__] runs; no object is returned when it raises. *)
Definition Scene_new (scene_number : Z) (timestamp : Q) (title : string)
    (energy information order p_align : Q)
    (characters : option (list string)) (location notes : string)
    : ValueError + Scene :=
  let self :=
    {| scene_number := scene_number; timestamp := timestamp; title := title;
       energy := energy; information := information; order := order;
       p_align := p_align; characters := characters; location := location;
       notes := notes |} in
  match __post_init__ self with
  | Some err => inl err
  | None => inr self
  end.

(** The closed unit interval. *)
Definition in_unit (x : Q) : Prop := (0 <= x <= 1)%Q.

(** A bound of an emotion band: a float, [float('inf')] or
    [float('-inf')]. *)
Inductive Bound := NegInf | Fin (q : Q) | PosInf.

(** [EMOTION_BANDS]: name, lower bound, upper bound. *)
Definition EMOTION_BANDS : list (string * Bound * Bound) :=
  [ ("Transcendence", Fin 0.7, PosInf);
    ("Resolve", Fin 0.4, Fin 0.7);
    ("Hope", Fin 0.08, Fin 0.4);
    ("Stable", Fin (-0.1), Fin 0.08);
    ("Fear", Fin (-0.4), Fin (-0.1));
    ("Despair", Fin (-0.7), Fin (-0.4));
    ("Collapse", NegInf, Fin (-0.7)) ]%Q.

(** [lo <= rate] and [rate < hi] for a finite [rate]. *)
Definition bound_le (lo : Bound) (rate : Q) : bool :=
  match lo with
  | NegInf => true
  | Fin q => Qle_bool q rate
  | PosInf => false
  end.

Definition lt_bound (rate : Q) (hi : Bound) : bool :=
  match hi with
  | NegInf => false
  | Fin q => Qlt_bool rate q
  | PosInf => true
  end.

(** The loop of [_classify] over a list of bands: the first band with
    [lo <= rate < hi] names the result, and ["Unknown"] is returned when
    the loop ends. *)
Fixpoint classify_in (bands : list (string * Bound * Bound)) (rate : Q)
    : string :=
  match bands with
  | [] => "Unknown"
  | (name, lo, hi) :: rest =>
      if bound_le lo rate && lt_bound rate hi then name
      else classify_in rest rate
  end.

(** [PsiCurveEngine._classify]. *)
Definition _classify (rate : Q) : string := classify_in EMOTION_BANDS rate.

Definition DARK_MIN : Q := 0.005.
Definition DARK_MAX : Q := 0.05.

(** The two flag columns that [_compute] adds for a row with coherence
    [psi]: [df["Ψ"].between(DARK_MIN, DARK_MAX)], which pandas takes with
    both ends included, and [df["Ψ"] < DARK_MIN]. *)
Definition dark_night (psi : Q) : bool :=
  Qle_bool DARK_MIN psi && Qle_bool psi DARK_MAX.

Definition collapse (psi : Q) : bool := Qlt_bool psi DARK_MIN.

End Engine.

(** ** The gateway client ([safety_gateway_client.py]) *)

Module Gateway.

(** [raw[::-1]] on the text that [json.dumps] returns, which is ASCII. *)
Fixpoint reverse_onto (s acc : string) : string :=
  match s with
  | EmptyString => acc
  | String c rest => reverse_onto rest (String c acc)
  end.

Definition reverse (s : string) : string := reverse_onto s "".

(** The fields of a [SafetyGatewayClient]. *)
Record SafetyGatewayClient := mkSafetyGatewayClient {
  gateway_url : option string;
  encryption_key : option string;
  local_log : string
}.

(** The dict returned by [send_alert]. *)
Record Receipt := mkReceipt {
  r_status : string;
  r_timestamp : string;
  r_gateway_id : string;
  r_human_required : bool
}.

Section WithJson.

(** The alert dict handed to [send_alert]. *)
Variable Alert : Type.

(** [alert_package] of [send_alert]. *)
Record Package := mkPackage {
  gateway_id : string;
  received_at : string;
  payload : Alert;
  autonomous_action : bool;
  human_required : bool;
  consent_verified : bool;
  reviewed_by_human : bool
}.

(** [json.dumps]. *)
Variable json_dumps : Package -> string.

(** [SafetyGatewayClient._encrypt]. *)
Definition _encrypt (self : SafetyGatewayClient) (package : Package) : string :=
  let raw := json_dumps package in
  reverse raw.

(** [SafetyGatewayClient._write_local]: the file [self.local_log], as its
    content, after the line is appended. *)
Definition _write_local (self : SafetyGatewayClient) (log encrypted : string)
    : string :=
  log ++ encrypted ++ String (ascii_of_nat 10) "".

(** [SafetyGatewayClient.send_alert]: [uuid4] is the text of
    [uuid.uuid4()], [utcnow] that of [datetime.utcnow().isoformat()];
    the result is the log file afterwards and the returned dict. *)
Definition send_alert (self : SafetyGatewayClient) (log : string)
    (alert : Alert) (uuid4 utcnow : string) : string * Receipt :=
  let timestamp := utcnow in
  let alert_package :=
    {| gateway_id := "GW-" ++ uuid4;
       received_at := timestamp;
       payload := alert;
       autonomous_action := false;
       human_required := true;
       consent_verified := false;
       reviewed_by_human := false |} in
  let encrypted := _encrypt self alert_package in
  let log1 := _write_local self log encrypted in
  (log1,
   {| r_status := "RECEIVED";
      r_timestamp := timestamp;
      r_gateway_id := gateway_id alert_package;
      r_human_required := true |}).

End WithJson.

End Gateway.

(** * Properties *)

(** ** Comparisons *)

Lemma Qlt_bool_iff (x y : Q) : Qlt_bool x y = true <-> (x < y)%Q.
Proof.
  unfold Qlt_bool. rewrite negb_true_iff, <- not_true_iff_false, Qle_bool_iff.
  split; [apply Qnot_le_lt | apply Qlt_not_le].
Qed.

Lemma Qlt_bool_false_iff (x y : Q) : Qlt_bool x y = false <-> (y <= x)%Q.
Proof.
  unfold Qlt_bool. rewrite negb_false_iff. apply Qle_bool_iff.
Qed.

Lemma Qle_bool_false_iff (x y : Q) : Qle_bool x y = false <-> (y < x)%Q.
Proof.
  rewrite <- not_true_iff_false, Qle_bool_iff.
  split; [apply Qnot_le_lt | apply Qlt_not_le].
Qed.

(** ** Number formatting *)

Example format_psi : PyFormat.format_f false 3 0.07 = "0.070".
Proof. reflexivity. Qed.

Example format_signed : PyFormat.format_f true 3 (-0.60) = "-0.600".
Proof. reflexivity. Qed.

Example format_tie_to_even : PyFormat.format_f false 2 0.125 = "0.12".
Proof. reflexivity. Qed.

Example format_carry : PyFormat.format_f false 2 12.999 = "13.00".
Proof. reflexivity. Qed.

Example format_negative_zero : PyFormat.format_f false 2 (-0.001) = "-0.00".
Proof. reflexivity. Qed.

Example join_three : PyFormat.join " | " ["a"; "b"; "c"] = "a | b | c".
Proof. reflexivity. Qed.

(** ** The crisis state machine *)

Section CPhaseFacts.

Import CPhase.

Example demo_outputs (now : UtcNow) :
  outputs init (demo_turns now) = repeat quiet 7.
Proof. reflexivity. Qed.

Local Open Scope list_scope.

(** *** The driver loop *)

Lemma run_cons self t rest :
  run self (t :: rest) =
  (final (fst (step_turn self t)) rest,
   snd (step_turn self t) :: outputs (fst (step_turn self t)) rest).
Proof.
  unfold final, outputs. simpl.
  destruct (step_turn self t) as [s1 r]. simpl.
  destruct (run s1 rest) as [s2 rs]. reflexivity.
Qed.

Lemma final_cons self t rest :
  final self (t :: rest) = final (fst (step_turn self t)) rest.
Proof. unfold final at 1. rewrite run_cons. reflexivity. Qed.

Lemma outputs_cons self t rest :
  outputs self (t :: rest) =
  snd (step_turn self t) :: outputs (fst (step_turn self t)) rest.
Proof. unfold outputs at 1. rewrite run_cons. reflexivity. Qed.

Lemma final_app self l1 l2 :
  final self (l1 ++ l2) = final (final self l1) l2.
Proof.
  revert self. induction l1 as [|t l1 IH]; intros self.
  - reflexivity.
  - simpl. rewrite !final_cons. apply IH.
Qed.

Lemma final_snoc self l t :
  final self (l ++ [t]) = fst (step_turn (final self l) t).
Proof. rewrite final_app, final_cons. reflexivity. Qed.

Lemma outputs_app self l1 l2 :
  outputs self (l1 ++ l2) = outputs self l1 ++ outputs (final self l1) l2.
Proof.
  revert self. induction l1 as [|t l1 IH]; intros self.
  - reflexivity.
  - simpl. rewrite !outputs_cons, final_cons, IH. reflexivity.
Qed.

Lemma outputs_length self turns : length (outputs self turns) = length turns.
Proof.
  revert self. induction turns as [|t rest IH]; intros self.
  - reflexivity.
  - rewrite outputs_cons. simpl. rewrite IH. reflexivity.
Qed.

(** Output [n] is what [step] returns on turn [n] from the machine left by
    the turns before it. *)
Lemma outputs_lookup self (turns : list Turn) n :
  outputs self turns !! n =
  (fun t => snd (step_turn (final self (take n turns)) t)) <$> turns !! n.
Proof.
  revert self n. induction turns as [|t rest IH]; intros self n.
  - destruct n; reflexivity.
  - rewrite outputs_cons. destruct n as [|n].
    + reflexivity.
    + simpl. rewrite final_cons. apply IH.
Qed.

Lemma before_S (turns : list Turn) n t :
  turns !! n = Some t ->
  before turns (S n) = fst (step_turn (before turns n) t).
Proof.
  intros H. unfold before. rewrite (take_S_r _ _ _ H). apply final_snoc.
Qed.

(** *** One step *)

(** Case analysis of one [step]: every test of [detect], [step] and
    [check_exit] is decided, and the record projections are reduced. *)
Ltac step_cases :=
  unfold step_turn, tick, step, detect, check_exit, deescalate, emits, exits,
    MIN_SUSTAINED, RESTORE_TURNS;
  repeat (cbn [fst snd crisis_turns recovery_turns active _turn_counter
               tier alert message negb andb orb] in *;
          match goal with
          | |- context [if ?b then _ else _] =>
              match type of b with bool => destruct b eqn:? end
          end);
  cbn [fst snd crisis_turns recovery_turns active _turn_counter
       tier alert message negb andb orb] in *.

Ltac leb_lia :=
  repeat match goal with
    | H : (_ <=? _)%nat = true |- _ => apply Nat.leb_le in H
    | H : (_ <=? _)%nat = false |- _ => apply Nat.leb_gt in H
    | H : _ && _ = true |- _ => apply andb_true_iff in H; destruct H
    | H : _ && _ = false |- _ => apply andb_false_iff in H; destruct H
    | H : negb _ = true |- _ => apply negb_true_iff in H
    | H : negb _ = false |- _ => apply negb_false_iff in H
    end.

(** An alert is returned exactly on a crisis tick that finds the machine
    inactive with a crisis tick already counted. *)
Lemma step_emits_iff s t :
  emits (snd (step_turn s t)) = true <->
  tick t = true /\ active s = false /\ 1 <= crisis_turns s.
Proof.
  destruct s as [ct rt a tc]. step_cases; leb_lia; subst.
  all: split; [intros; repeat split; (congruence || lia)
              | intros (? & ? & ?); (congruence || lia)].
Qed.

(** On the entry turn the machine becomes active and the message is the
    beat under the cursor. *)
Lemma step_entry s t :
  emits (snd (step_turn s t)) = true ->
  active (fst (step_turn s t)) = true /\
  tier (snd (step_turn s t)) = "SAFETY"%string /\
  message (snd (step_turn s t)) = Some (nth (_turn_counter s mod 4) beats ""%string).
Proof.
  destruct s as [ct rt a tc]. step_cases; leb_lia; subst;
    intros; repeat split; congruence.
Qed.

(** An active machine never returns an alert. *)
Lemma step_active_silent s t :
  active s = true -> emits (snd (step_turn s t)) = false.
Proof.
  intros Ha. apply not_true_iff_false. rewrite step_emits_iff.
  intros (_ & Hf & _). congruence.
Qed.

(** The crisis counter is positive after a step only if the step was a
    crisis tick. *)
Lemma step_crisis_turns s t :
  1 <= crisis_turns (fst (step_turn s t)) -> tick t = true.
Proof.
  destruct s as [ct rt a tc]. step_cases; leb_lia; subst;
    intros; (congruence || lia).
Qed.

(** Leaving the crisis state: the test of [check_exit] on an active
    machine. *)
Lemma step_exits_iff s t :
  exits (snd (step_turn s t)) = true <->
  active s = true /\ t_hard_flag t = false /\
  Qle_bool EXIT_THRESHOLD (value (t_psi t)) = true /\
  3 <= recovery_turns s + 1.
Proof.
  destruct s as [ct rt a tc]. step_cases; leb_lia; subst;
    simpl String.eqb in *.
  all: split; [intros; repeat split; (congruence || lia)
              | intros (? & ? & ? & ?); (congruence || lia)].
Qed.

(** An active machine stays active unless the step is the exit. *)
Lemma step_stays_active s t :
  active s = true ->
  active (fst (step_turn s t)) = negb (exits (snd (step_turn s t))).
Proof.
  destruct s as [ct rt a tc]. step_cases; leb_lia; subst;
    simpl String.eqb in *; intros; cbn [negb]; congruence.
Qed.

Lemma at_rest_init : at_rest init.
Proof. split; [intros _; split; reflexivity | cbv; lia]. Qed.

Lemma at_rest_step s t : at_rest s -> at_rest (fst (step_turn s t)).
Proof.
  unfold at_rest. destruct s as [ct rt a tc]. intros [H1 H2].
  step_cases; leb_lia; subst; cbn in *; split; try lia;
    intros Hf; try discriminate; try (destruct (H1 Hf)); split; lia.
Qed.

Lemma at_rest_final turns s : at_rest s -> at_rest (final s turns).
Proof.
  revert s. induction turns as [|t rest IH]; intros s Hs.
  - exact Hs.
  - rewrite final_cons. apply IH, at_rest_step, Hs.
Qed.



(** *** Sequences of steps from a fresh machine *)

Lemma at_rest_before turns n : at_rest (before turns n).
Proof. apply at_rest_final, at_rest_init. Qed.

(** Turn [n] of a run, seen as one step from the machine before it. *)
Lemma output_at (turns : list Turn) n r :
  outputs init turns !! n = Some r ->
  exists t, turns !! n = Some t /\ r = snd (step_turn (before turns n) t).
Proof.
  rewrite outputs_lookup. unfold before.
  destruct (turns !! n) as [t|]; simpl; intros H; [|discriminate].
  exists t. split; congruence.
Qed.

(** A positive crisis counter records a crisis tick on the turn before. *)
Lemma crisis_turns_before (turns : list Turn) n :
  1 <= crisis_turns (before turns n) ->
  n <= length turns ->
  exists m t, n = S m /\ turns !! m = Some t /\ tick t = true.
Proof.
  destruct n as [|m]; intros Hc Hn.
  - unfold before in Hc. simpl in Hc. lia.
  - destruct (lookup_lt_is_Some_2 turns m) as [t Ht]; [lia|].
    rewrite (before_S _ _ _ Ht) in Hc.
    exists m, t. repeat split; [exact Ht|]. eapply step_crisis_turns, Hc.
Qed.

(** From an active machine, an alert can only come after an exit. *)
Lemma alert_after_exit (turns : list Turn) s j rj :
  active s = true ->
  outputs s turns !! j = Some rj -> emits rj = true ->
  exists k rk, k < j /\ outputs s turns !! k = Some rk /\ exits rk = true.
Proof.
  revert s j. induction turns as [|t rest IH]; intros s j Ha Hj He.
  - destruct j; discriminate.
  - rewrite outputs_cons in Hj |- *. destruct j as [|j].
    + simpl in Hj. injection Hj as <-.
      rewrite (step_active_silent s t Ha) in He. discriminate.
    + simpl in Hj.
      destruct (exits (snd (step_turn s t))) eqn:Hx.
      * exists 0, (snd (step_turn s t)). repeat split; [lia|exact Hx].
      * pose proof (step_stays_active s t Ha) as Hs. rewrite Hx in Hs.
        destruct (IH _ _ Hs Hj He) as (k & rk & Hk & Hl & Hxk).
        exists (S k), rk. repeat split; [lia|exact Hl|exact Hxk].
Qed.

(** *** The demo timeline *)

(** C1, as the specification states it, fails: on the demo timeline with
    no hard flag the 4th call of [step] returns no alert (tier NORMAL, no
    message), and no alert is returned over the whole sequence, because
    neither 0.07 nor 0.06 is below [CRISIS_THRESHOLD]. *)
Lemma timeline_fourth_reading_no_entry :
  outputs init (demo_turns epoch) !! 3 = Some quiet /\
  count_alerts (outputs init (demo_turns epoch)) = 0 /\
  Qlt_bool 0.07 CRISIS_THRESHOLD = false /\
  Qlt_bool 0.06 CRISIS_THRESHOLD = false /\
  ~ (emits <$> outputs init (demo_turns epoch) !! 3 = Some true /\
     count_alerts (outputs init (demo_turns epoch)) = 1).
Proof.
  repeat split; try reflexivity.
  intros [H _]. vm_compute in H. discriminate.
Qed.

(** C1, amended: for the psi sequence
    [0.32, 0.18, 0.07, 0.06, 0.08, 0.12, 0.16] stepped turn by turn with no
    hard flag from a fresh machine, whatever the gradients and clock
    readings, no reading is below 0.05, so entry never fires: each of the
    seven calls returns tier NORMAL with no message and no alert, no exit
    fires, and the machine ends as it started. *)
Theorem timeline_never_enters (turns : list Turn) :
  map (fun t => value (t_psi t)) turns = timeline ->
  Forall (fun t => t_hard_flag t = false) turns ->
  outputs init turns = repeat quiet 7 /\
  count_alerts (outputs init turns) = 0 /\
  count_exits (outputs init turns) = 0 /\
  final init turns = init.
Proof.
  intros Hv Hf. unfold timeline in Hv.
  do 8 (destruct turns as [|[[? ?] ? ?] turns]; try discriminate Hv).
  simpl in Hv. injection Hv as -> -> -> -> -> -> ->.
  repeat match goal with
    | H : Forall _ (_ :: _) |- _ => inversion H; clear H; subst
    end.
  simpl in *. subst. repeat split; reflexivity.
Qed.

Lemma timeline_never_enters_witness :
  outputs init (demo_turns epoch) = repeat quiet 7 /\
  count_alerts (outputs init (demo_turns epoch)) = 0 /\
  count_exits (outputs init (demo_turns epoch)) = 0 /\
  final init (demo_turns epoch) = init.
Proof.
  apply (timeline_never_enters (demo_turns epoch)).
  - reflexivity.
  - unfold demo_turns, readings, timeline. simpl. repeat constructor.
Defined.

(** *** Entry *)

(** C2.  In every run from a fresh machine: a turn returns an alert only
    if the machine was inactive when the turn began and both that turn and
    the turn just before it were crisis ticks ([hard_flag] set or
    [psi < 0.05]); between two alerts there is always an exit turn, so an
    episode (entry to exit) has one alert, however long it lasts; and a
    lone crisis tick, the first turn or one that follows a turn that was
    no crisis tick, followed by a turn that is no crisis tick returns no
    alert on either turn. *)
Theorem alert_needs_two_ticks_once_per_episode (turns : list Turn) :
  (forall n r,
     outputs init turns !! n = Some r -> emits r = true ->
     active (before turns n) = false /\
     tick <$> turns !! n = Some true /\
     exists m, n = S m /\ tick <$> turns !! m = Some true) /\
  (forall i j ri rj,
     i < j ->
     outputs init turns !! i = Some ri -> emits ri = true ->
     outputs init turns !! j = Some rj -> emits rj = true ->
     exists k rk,
       i < k < j /\ outputs init turns !! k = Some rk /\ exits rk = true) /\
  (forall n t u r,
     turns !! n = Some t -> turns !! S n = Some u ->
     tick t = true -> tick u = false ->
     (n = 0 \/ exists m w, n = S m /\ turns !! m = Some w /\ tick w = false) ->
     (outputs init turns !! n = Some r \/
      outputs init turns !! S n = Some r) ->
     emits r = false).
Proof.
  assert (Hone : forall n r,
     outputs init turns !! n = Some r -> emits r = true ->
     active (before turns n) = false /\
     tick <$> turns !! n = Some true /\
     exists m, n = S m /\ tick <$> turns !! m = Some true).
  { intros n r Hr He.
    destruct (output_at _ _ _ Hr) as (t & Ht & ->).
    apply step_emits_iff in He as (Htick & Hinact & Hc).
    split; [exact Hinact|]. split; [rewrite Ht; simpl; congruence|].
    apply lookup_lt_Some in Ht.
    destruct (crisis_turns_before turns n Hc) as (m & w & -> & Hw & Hwt); [lia|].
    exists m. split; [reflexivity|]. rewrite Hw. simpl. congruence. }
  split; [exact Hone|]. split.
  - intros i j ri rj Hij Hi Hei Hj Hej.
    destruct (output_at _ _ _ Hi) as (t & Ht & ->).
    pose proof (lookup_lt_Some _ _ _ Ht) as Hlen.
    destruct (step_entry _ _ Hei) as (Hact & _).
    rewrite <- (before_S _ _ _ Ht) in Hact.
    rewrite <- (take_drop (S i) turns) in Hj.
    rewrite outputs_app in Hj.
    rewrite lookup_app_r in Hj by (rewrite outputs_length, length_take; lia).
    rewrite outputs_length, length_take in Hj.
    replace (S i `min` length turns) with (S i) in Hj by lia.
    destruct (alert_after_exit _ _ _ _ Hact Hj Hej) as (k & rk & Hk & Hl & Hx).
    exists (S i + k), rk. split; [lia|]. split; [|exact Hx].
    rewrite <- (take_drop (S i) turns), outputs_app.
    rewrite lookup_app_r by (rewrite outputs_length, length_take; lia).
    rewrite outputs_length, length_take.
    replace (S i + k - S i `min` length turns) with k by lia.
    exact Hl.
  - intros n t u r Ht Hu Htt Hut Hprev Hr.
    apply not_true_iff_false. intros He.
    destruct Hr as [Hr|Hr]; destruct (Hone _ _ Hr He) as (_ & Hn & m & Hm & Hw).
    + destruct Hprev as [->|(m' & w & -> & Hw' & Hwt)]; [discriminate|].
      injection Hm as <-. rewrite Hw' in Hw. simpl in Hw. congruence.
    + rewrite Hu in Hn. simpl in Hn. congruence.
Qed.

Lemma alert_needs_two_ticks_once_per_episode_witness :
  (active (before (readings epoch relapse) 3) = false /\
   tick <$> readings epoch relapse !! 3 = Some true /\
   exists m, 3 = S m /\ tick <$> readings epoch relapse !! m = Some true) /\
  (exists k rk,
     3 < k < 8 /\
     outputs init (readings epoch relapse) !! k = Some rk /\
     exits rk = true) /\
  emits quiet = false.
Proof.
  destruct (alert_needs_two_ticks_once_per_episode (readings epoch relapse))
    as (H1 & H2 & H3).
  split; [|split].
  - eapply H1; [vm_compute; reflexivity | reflexivity].
  - eapply (H2 3 8); [lia | vm_compute; reflexivity | reflexivity
                      | vm_compute; reflexivity | reflexivity].
  - eapply (H3 0); [vm_compute; reflexivity | vm_compute; reflexivity
                    | reflexivity | reflexivity | left; reflexivity
                    | right; vm_compute; reflexivity].
Defined.

(** C10.  After any sequence of [step] calls on a fresh machine, an
    inactive machine has recovery counter 0 and beat cursor 0; and every
    turn that returns an alert, the entry of an episode, carries the
    GROUND beat, index 0 of the four beats, as its message. *)
Theorem inactive_counters_zero_ground_first (turns : list Turn) :
  (active (final init turns) = false ->
   recovery_turns (final init turns) = 0 /\
   _turn_counter (final init turns) = 0) /\
  (forall n r,
     outputs init turns !! n = Some r -> emits r = true ->
     message r = beats !! 0 /\
     message r =
       Some "GROUND → 'I’m here with you. Breathe—slow in, slow out.'"%string).
Proof.
  split.
  - apply (at_rest_final turns init at_rest_init).
  - intros n r Hr He.
    destruct (output_at _ _ _ Hr) as (t & Ht & ->).
    destruct (step_entry _ _ He) as (_ & _ & Hm).
    apply step_emits_iff in He as (_ & Hinact & _).
    destruct (at_rest_before turns n) as [Hrest _].
    destruct (Hrest Hinact) as [_ Hc].
    rewrite Hm, Hc. split; reflexivity.
Qed.

Lemma inactive_counters_zero_ground_first_witness :
  (recovery_turns (final init (demo_turns epoch)) = 0 /\
   _turn_counter (final init (demo_turns epoch)) = 0) /\
  (exists r,
     outputs init (readings epoch relapse) !! 8 = Some r /\
     message r = beats !! 0).
Proof.
  split.
  - apply (inactive_counters_zero_ground_first (demo_turns epoch)).
    reflexivity.
  - destruct (inactive_counters_zero_ground_first (readings epoch relapse))
      as [_ H].
    eexists. split; [vm_compute; reflexivity|].
    eapply (H 8); [vm_compute; reflexivity | reflexivity].
Defined.

(** *** Exit *)

(** [step] on an active machine, as one decision table. *)
Lemma step_active_eq ct rt tc p hf now :
  step (mkCPhaseRuntime ct rt true tc) p hf now =
  let ct' := if crisis_tick p hf then ct + 1 else 0 in
  let beat := Some (nth (tc mod 4) beats ""%string) in
  if hf then
    (mkCPhaseRuntime ct' 0 true (tc + 1), mkStepResult "SAFETY" None beat)
  else if Qle_bool EXIT_THRESHOLD (value p) then
    if (3 <=? rt + 1)%nat then
      (init, mkStepResult "COHERENCE" None (Some STABILITY_RESTORED))
    else
      (mkCPhaseRuntime ct' (rt + 1) true (tc + 1),
       mkStepResult "SAFETY" None beat)
  else
    (mkCPhaseRuntime ct' 0 true (tc + 1), mkStepResult "SAFETY" None beat).
Proof.
  cbv zeta. step_cases; try reflexivity.
  all: rewrite andb_false_r in *; discriminate.
Qed.

(** C4.  One [step] of an active machine.  With a hard flag the recovery
    counter becomes 0 and the machine stays active (tier SAFETY).  Without
    one, [psi < 0.10] sets the recovery counter to 0 and [psi >= 0.10] adds
    one to it; the machine leaves exactly when that makes the counter reach
    [RESTORE_TURNS] = 3, and on that turn the crisis counter, the recovery
    counter and the beat cursor are 0, the machine is inactive, and [step]
    returns tier COHERENCE with the fixed message and no alert.  From a
    recovery counter of 0, three qualifying turns in a row leave on the
    third and not before. *)
Theorem active_step_recovery (s : CPhaseRuntime) (p : PsiState) (hf : bool)
    (now : UtcNow) :
  active s = true ->
  let s' := fst (step s p hf now) in
  let r := snd (step s p hf now) in
  (hf = true ->
   recovery_turns s' = 0 /\ active s' = true /\ tier r = "SAFETY"%string) /\
  (hf = false -> (value p < EXIT_THRESHOLD)%Q ->
   recovery_turns s' = 0 /\ active s' = true /\ tier r = "SAFETY"%string) /\
  (hf = false -> (EXIT_THRESHOLD <= value p)%Q ->
   recovery_turns s + 1 < RESTORE_TURNS ->
   recovery_turns s' = recovery_turns s + 1 /\ active s' = true /\
   tier r = "SAFETY"%string) /\
  (hf = false -> (EXIT_THRESHOLD <= value p)%Q ->
   RESTORE_TURNS <= recovery_turns s + 1 ->
   crisis_turns s' = 0 /\ recovery_turns s' = 0 /\ _turn_counter s' = 0 /\
   active s' = false /\
   tier r = "COHERENCE"%string /\
   message r = Some "Stability restored. Resuming normal reasoning."%string /\
   alert r = None) /\
  (active s' = false <->
   hf = false /\ (EXIT_THRESHOLD <= value p)%Q /\
   RESTORE_TURNS <= recovery_turns s + 1) /\
  (recovery_turns s = 0 ->
   forall t1 t2 t3,
     Forall (fun t => t_hard_flag t = false /\
                      (EXIT_THRESHOLD <= value (t_psi t))%Q) [t1; t2; t3] ->
     map exits (outputs s [t1; t2; t3]) = [false; false; true]).
Proof.
  intros Ha. destruct s as [ct rt a tc]. simpl in Ha. subst a.
  cbv zeta. unfold RESTORE_TURNS.
  cbn [crisis_turns recovery_turns active _turn_counter].
  assert (Hstep := step_active_eq ct rt tc p hf now). cbv zeta in Hstep.
  split; [|split; [|split; [|split; [|split]]]].
  - intros ->. rewrite Hstep. repeat split.
  - intros -> Hlt. apply Qle_bool_false_iff in Hlt.
    rewrite Hstep, Hlt. repeat split.
  - intros -> Hle Hrt. apply Qle_bool_iff in Hle.
    apply Nat.leb_gt in Hrt.
    rewrite Hstep, Hle, Hrt. repeat split.
  - intros -> Hle Hrt. apply Qle_bool_iff in Hle.
    apply Nat.leb_le in Hrt.
    rewrite Hstep, Hle, Hrt. repeat split.
  - rewrite Hstep. destruct hf.
    + cbn. split; [discriminate | intros (? & _); discriminate].
    + destruct (Qle_bool EXIT_THRESHOLD (value p)) eqn:Hq.
      * apply Qle_bool_iff in Hq.
        destruct (3 <=? rt + 1)%nat eqn:Hrt; cbn.
        -- apply Nat.leb_le in Hrt. repeat split; assumption.
        -- apply Nat.leb_gt in Hrt.
           split; [discriminate | intros (_ & _ & ?); lia].
      * apply Qle_bool_false_iff in Hq. cbn.
        split; [discriminate|].
        intros (_ & Hle & _). exfalso. exact (Qlt_not_le _ _ Hq Hle).
  - intros -> t1 t2 t3 Hq.
    inversion Hq as [|? ? [Hf1 Hp1] Hq2]; subst.
    inversion Hq2 as [|? ? [Hf2 Hp2] Hq3]; subst.
    inversion Hq3 as [|? ? [Hf3 Hp3] _]; subst.
    apply Qle_bool_iff in Hp1, Hp2, Hp3.
    rewrite !outputs_cons. unfold step_turn.
    rewrite Hf1, Hf2, Hf3.
    rewrite step_active_eq. cbv zeta. rewrite Hp1. cbn.
    rewrite step_active_eq. cbv zeta. rewrite Hp2. cbn.
    rewrite step_active_eq. cbv zeta. rewrite Hp3. cbn.
    reflexivity.
Qed.

Lemma active_step_recovery_witness :
  recovery_turns
    (fst (step (mkCPhaseRuntime 5 2 true 3) (mkPsiState 0.12 0.04) true epoch))
  = 0 /\
  (fst (step (mkCPhaseRuntime 5 2 true 3) (mkPsiState 0.12 0.04) false epoch)
   = init /\
   tier (snd (step (mkCPhaseRuntime 5 2 true 3) (mkPsiState 0.12 0.04)
                   false epoch)) = "COHERENCE"%string).
Proof.
  split.
  - destruct (active_step_recovery (mkCPhaseRuntime 5 2 true 3)
                (mkPsiState 0.12 0.04) true epoch eq_refl) as (H & _).
    exact (proj1 (H eq_refl)).
  - destruct (active_step_recovery (mkCPhaseRuntime 5 2 true 3)
                (mkPsiState 0.12 0.04) false epoch eq_refl)
      as (_ & _ & _ & H & _).
    assert (Hle : (EXIT_THRESHOLD <= 0.12)%Q) by (vm_compute; discriminate).
    assert (Hrt : RESTORE_TURNS <= 2 + 1) by (unfold RESTORE_TURNS; lia).
    destruct (H eq_refl Hle Hrt) as (_ & _ & _ & _ & Ht & _).
    split; [reflexivity | exact Ht].
Defined.

(** *** Readings outside the unit interval *)

(** C5, as the specification states it, fails: [step] has no validation.
    With [psi = -0.3] a fresh machine returns normally and its crisis
    counter goes from 0 to 1; with [psi = 1.7] an active machine with two
    recovery turns leaves the crisis state. *)
Lemma step_accepts_psi_outside_unit_interval :
  ~ (0 <= -0.3 <= 1)%Q /\
  step init (mkPsiState (-0.3) 0) false epoch
    = (mkCPhaseRuntime 1 0 false 0, quiet) /\
  fst (step init (mkPsiState (-0.3) 0) false epoch) <> init /\
  ~ (0 <= 1.7 <= 1)%Q /\
  step (mkCPhaseRuntime 0 2 true 1) (mkPsiState 1.7 0) false epoch
    = (init, mkStepResult "COHERENCE" None (Some STABILITY_RESTORED)).
Proof.
  split; [intros [H _]; vm_compute in H; apply H; reflexivity|].
  split; [reflexivity|].
  split; [vm_compute; discriminate|].
  split; [intros [_ H]; vm_compute in H; apply H; reflexivity|].
  reflexivity.
Qed.

(** C5, amended: [step] takes every psi as it is, inside the unit
    interval or not, and never raises.  Without a hard flag, a psi below 0
    is a crisis tick like any reading below 0.05 (the crisis counter grows
    by one) and a psi above 1 is no crisis tick (the crisis counter is 0
    after the step); an alert returned on the turn carries the psi and the
    gradient it was given, not a clamped value. *)
Theorem step_uses_raw_psi (s : CPhaseRuntime) (p : PsiState) (now : UtcNow) :
  ((value p < 0)%Q ->
   crisis_turns (fst (step s p false now)) = crisis_turns s + 1) /\
  ((1 < value p)%Q ->
   crisis_turns (fst (step s p false now)) = 0) /\
  (forall hf a,
     alert (snd (step s p hf now)) = Some a ->
     psi a = value p /\ dpsi_dt a = gradient p).
Proof.
  destruct s as [ct rt a tc]. split; [|split].
  - intros Hneg.
    assert (Ht : crisis_tick p false = true).
    { apply Qlt_bool_iff. unfold CRISIS_THRESHOLD. lra. }
    assert (Hx : Qle_bool EXIT_THRESHOLD (value p) = false).
    { apply Qle_bool_false_iff. unfold EXIT_THRESHOLD. lra. }
    unfold step, detect, check_exit, deescalate. rewrite Ht, Hx.
    step_cases; reflexivity.
  - intros Hbig.
    assert (Ht : crisis_tick p false = false).
    { apply Qlt_bool_false_iff. unfold CRISIS_THRESHOLD. lra. }
    unfold step, detect, check_exit, deescalate. rewrite Ht.
    step_cases; reflexivity.
  - intros hf al. step_cases; intros H; try discriminate;
      injection H as <-; split; reflexivity.
Qed.

Lemma step_uses_raw_psi_witness :
  crisis_turns (fst (step init (mkPsiState (-0.3) 0) false epoch)) = 0 + 1 /\
  crisis_turns
    (fst (step (mkCPhaseRuntime 4 0 true 2) (mkPsiState 1.7 0) false epoch)) = 0.
Proof.
  split.
  - apply (step_uses_raw_psi init (mkPsiState (-0.3) 0) epoch).
    vm_compute. reflexivity.
  - apply (step_uses_raw_psi (mkCPhaseRuntime 4 0 true 2)
             (mkPsiState 1.7 0) epoch).
    vm_compute. reflexivity.
Defined.

(** *** More on entry *)

(** A reading cannot be below [CRISIS_THRESHOLD] and at or above
    [EXIT_THRESHOLD]. *)
Lemma tick_not_recovers t : tick t = true -> recovers t = false.
Proof.
  unfold tick, recovers, crisis_tick, recovery_tick.
  destruct (t_hard_flag t); [reflexivity|]. simpl.
  intros H. apply Qlt_bool_iff in H. apply Qle_bool_false_iff.
  unfold CRISIS_THRESHOLD in H. unfold EXIT_THRESHOLD. lra.
Qed.

Lemma step_exits_recovers s t :
  exits (snd (step_turn s t)) = true -> recovers t = true.
Proof.
  intros H. apply step_exits_iff in H as (_ & Hf & Hq & _).
  unfold recovers, recovery_tick. rewrite Hf, Hq. reflexivity.
Qed.

(** A crisis tick always leaves at least one tick counted. *)
Lemma step_tick_counted s t :
  tick t = true -> 1 <= crisis_turns (fst (step_turn s t)).
Proof.
  intros Ht. pose proof (tick_not_recovers t Ht) as Hr.
  unfold recovers, recovery_tick in Hr. unfold tick in Ht.
  destruct s as [ct rt a tc]. unfold step_turn, step, detect, check_exit,
    deescalate. rewrite Ht.
  destruct (t_hard_flag t); simpl in Hr.
  - step_cases; lia.
  - rewrite Hr. step_cases; lia.
Qed.

(** X1.  Entry is certain: in a run from a fresh machine, when two turns
    in a row are crisis ticks (a hard flag, whatever psi is, or
    [psi < 0.05]) and the machine is inactive when the second begins, the
    second returns an alert with tier SAFETY and leaves the machine
    active. *)
Theorem two_ticks_in_a_row_enter (turns : list Turn) n t u :
  turns !! n = Some t -> turns !! S n = Some u ->
  tick t = true -> tick u = true ->
  active (before turns (S n)) = false ->
  exists r a,
    outputs init turns !! S n = Some r /\
    alert r = Some a /\ tier r = "SAFETY"%string /\
    active (before turns (S (S n))) = true.
Proof.
  intros Ht Hu Htt Hut Hinact.
  assert (He : emits (snd (step_turn (before turns (S n)) u)) = true).
  { apply step_emits_iff. repeat split; [exact Hut | exact Hinact |].
    rewrite (before_S _ _ _ Ht). apply step_tick_counted, Htt. }
  destruct (step_entry _ _ He) as (Hact & Htier & _).
  exists (snd (step_turn (before turns (S n)) u)).
  unfold emits in He.
  destruct (alert (snd (step_turn (before turns (S n)) u))) as [a|] eqn:Ha;
    [|discriminate].
  exists a. split; [|split; [reflexivity|split; [exact Htier|]]].
  - rewrite outputs_lookup, Hu. reflexivity.
  - rewrite (before_S _ _ _ Hu). exact Hact.
Qed.

Lemma two_ticks_in_a_row_enter_witness :
  (exists r a,
     outputs init (readings epoch relapse) !! 3 = Some r /\
     alert r = Some a /\ tier r = "SAFETY"%string /\
     active (before (readings epoch relapse) 4) = true) /\
  (exists r a,
     outputs init (flagged epoch [0.9; 1]%Q) !! 1 = Some r /\
     alert r = Some a /\ tier r = "SAFETY"%string /\
     active (before (flagged epoch [0.9; 1]%Q) 2) = true).
Proof.
  split.
  - eapply (two_ticks_in_a_row_enter (readings epoch relapse) 2);
      vm_compute; reflexivity.
  - eapply (two_ticks_in_a_row_enter (flagged epoch [0.9; 1]%Q) 0);
      vm_compute; reflexivity.
Defined.

(** *** What a step returns *)

(** X2.  Every alert that [step] returns is the record built by
    [_make_alert] from the turn: the psi and gradient as given, the fixed
    reason, the id "ALERT-" + clock text, and the four safety flags
    [autonomous_action=False], [human_required=True],
    [consent_verified=False], [reviewed_by_human=False]. *)
Theorem alert_payload_is_fixed (s : CPhaseRuntime) (p : PsiState)
    (hf : bool) (now : UtcNow) (a : CrisisAlert) :
  alert (snd (step s p hf now)) = Some a ->
  a = mkCrisisAlert ("ALERT-" ++ utc_timestamp now)%string (utc_isoformat now)
        (value p) (gradient p) "Ψ below threshold or hard flag"
        false true false false /\
  autonomous_action a = false /\ human_required a = true /\
  consent_verified a = false /\ reviewed_by_human a = false.
Proof.
  destruct s as [ct rt ac tc]. step_cases; intros H; try discriminate;
    injection H as <-; repeat split; reflexivity.
Qed.

Lemma alert_payload_is_fixed_witness :
  exists a,
    alert (snd (step (mkCPhaseRuntime 1 0 false 0) (mkPsiState 0.01 (-0.2))
                  false epoch)) = Some a /\
    autonomous_action a = false /\ human_required a = true.
Proof.
  eexists. split; [vm_compute; reflexivity|].
  destruct (alert_payload_is_fixed (mkCPhaseRuntime 1 0 false 0)
              (mkPsiState 0.01 (-0.2)) false epoch _ eq_refl)
    as (_ & H1 & H2 & _).
  split; [exact H1 | exact H2].
Defined.

(** X3.  The tier and the message of a step tell the state of the
    machine: tier SAFETY exactly when the machine is active after the
    step, COHERENCE exactly when the step took an active machine out of
    the crisis state, NORMAL exactly when the machine was and stays
    inactive; the message is [None] exactly when the tier is NORMAL, and
    no other tier is ever returned. *)
Theorem step_tier_and_message (s : CPhaseRuntime) (p : PsiState) (hf : bool)
    (now : UtcNow) :
  (tier (snd (step s p hf now)) = "SAFETY"%string <->
   active (fst (step s p hf now)) = true) /\
  (tier (snd (step s p hf now)) = "COHERENCE"%string <->
   active s = true /\ active (fst (step s p hf now)) = false) /\
  (tier (snd (step s p hf now)) = "NORMAL"%string <->
   active s = false /\ active (fst (step s p hf now)) = false) /\
  (message (snd (step s p hf now)) = None <->
   tier (snd (step s p hf now)) = "NORMAL"%string) /\
  (alert (snd (step s p hf now)) <> None ->
   active s = false /\ active (fst (step s p hf now)) = true).
Proof.
  destruct s as [ct rt ac tc]. step_cases; leb_lia; subst;
    repeat split; try intros [? ?]; intros; try reflexivity;
    try discriminate; try congruence.
Qed.

Lemma step_tier_and_message_witness :
  tier (snd (step (mkCPhaseRuntime 3 1 true 2) (mkPsiState 0.2 0.1) false
              epoch)) = "SAFETY"%string.
Proof.
  apply (step_tier_and_message (mkCPhaseRuntime 3 1 true 2)
           (mkPsiState 0.2 0.1) false epoch).
  reflexivity.
Defined.

(** *** The beats of an episode *)

Lemma beats_lookup k : beats !! (k mod 4) = Some (nth (k mod 4) beats ""%string).
Proof.
  pose proof (Nat.mod_upper_bound k 4 ltac:(lia)) as H.
  destruct (k mod 4) as [|[|[|[|m]]]]; try reflexivity. lia.
Qed.

(** A step of an active machine that is not the exit returns the beat
    under the cursor and moves the cursor on by one. *)
Lemma step_active_beat s t :
  active s = true -> exits (snd (step_turn s t)) = false ->
  active (fst (step_turn s t)) = true /\
  _turn_counter (fst (step_turn s t)) = _turn_counter s + 1 /\
  message (snd (step_turn s t)) = beats !! (_turn_counter s mod 4).
Proof.
  intros Ha Hx. rewrite beats_lookup. destruct s as [ct rt a tc].
  simpl in Ha. subst a. revert Hx. unfold step_turn.
  rewrite step_active_eq. cbv zeta. unfold exits.
  destruct (t_hard_flag t); [intros _; repeat split|].
  destruct (Qle_bool _ _); [|intros _; repeat split].
  destruct (3 <=? rt + 1)%nat; [|intros _; repeat split].
  simpl. discriminate.
Qed.

(** The cursor, [k] turns after an entry with no exit in between. *)
Lemma cursor_after_entry (turns : list Turn) n rn k :
  outputs init turns !! n = Some rn -> emits rn = true ->
  (forall j rj, n < j <= n + k ->
     outputs init turns !! j = Some rj -> exits rj = false) ->
  n + k < length turns ->
  active (before turns (S (n + k))) = true /\
  _turn_counter (before turns (S (n + k))) = k + 1 /\
  (forall r, outputs init turns !! (n + k) = Some r ->
     message r = beats !! (k mod 4)).
Proof.
  intros Hn He. induction k as [|k IH]; intros Hno Hlen.
  - rewrite Nat.add_0_r in *.
    destruct (output_at _ _ _ Hn) as (t & Ht & ->).
    rewrite (before_S _ _ _ Ht).
    destruct (step_entry _ _ He) as (Hact & _ & Hm).
    pose proof He as He'.
    apply step_emits_iff in He' as (_ & Hinact & _).
    destruct (at_rest_before turns n) as [Hrest _].
    destruct (Hrest Hinact) as [_ Hc].
    split; [exact Hact|]. split.
    + clear Hm. revert He. destruct (before turns n) as [ct rt a tc].
      simpl in Hc, Hinact. subst. step_cases; intros; (reflexivity || discriminate).
    + intros r Hr. rewrite Hn in Hr. injection Hr as <-.
      rewrite Hm, Hc. reflexivity.
  - destruct IH as (Hact & Hc & _).
    { intros j rj Hj. apply Hno. lia. }
    { lia. }
    replace (n + S k) with (S (n + k)) in * by lia.
    destruct (lookup_lt_is_Some_2 turns (S (n + k)) Hlen) as [t Ht].
    assert (Hout : outputs init turns !! S (n + k)
                   = Some (snd (step_turn (before turns (S (n + k))) t))).
    { rewrite outputs_lookup, Ht. reflexivity. }
    assert (Hx : exits (snd (step_turn (before turns (S (n + k))) t)) = false).
    { apply (Hno (S (n + k))); [lia | exact Hout]. }
    destruct (step_active_beat _ t Hact Hx) as (Hact' & Hc' & Hm').
    rewrite (before_S _ _ _ Ht).
    split; [exact Hact'|]. split; [rewrite Hc', Hc; lia|].
    intros r Hr. rewrite Hout in Hr. injection Hr as <-.
    rewrite Hm', Hc. replace (k + 1) with (S k) by lia. reflexivity.
Qed.

(** X4.  The beats of an episode: in a run from a fresh machine, [k] turns
    after the turn that returned the alert, with no exit in between, the
    message is beat [k mod 4] of GROUND, VALIDATE, TINY CONTROL, BRIDGE TO
    CARE: the sequence starts at GROUND, follows the fixed order and
    wraps after four turns. *)
Theorem beats_cycle_through_episode (turns : list Turn) n rn k r :
  outputs init turns !! n = Some rn -> emits rn = true ->
  (forall j rj, n < j <= n + k ->
     outputs init turns !! j = Some rj -> exits rj = false) ->
  outputs init turns !! (n + k) = Some r ->
  message r = beats !! (k mod 4).
Proof.
  intros Hn He Hno Hr.
  pose proof (lookup_lt_Some _ _ _ Hr) as Hlen.
  rewrite outputs_length in Hlen.
  destruct (cursor_after_entry turns n rn k Hn He Hno Hlen) as (_ & _ & H).
  apply H, Hr.
Qed.

Lemma beats_cycle_through_episode_witness :
  exists r,
    outputs init (readings epoch collapse) !! (2 + 5) = Some r /\
    message r = beats !! (5 mod 4).
Proof.
  eexists. split; [vm_compute; reflexivity|].
  eapply (beats_cycle_through_episode (readings epoch collapse) 2 _ 5).
  - vm_compute. reflexivity.
  - reflexivity.
  - intros j rj Hj.
    destruct j as [|[|[|[|[|[|[|[|j]]]]]]]]; try lia;
      intros H; vm_compute in H; injection H as <-; reflexivity.
  - vm_compute. reflexivity.
Defined.

(** *** Leaving *)

Lemma step_exit_init s t :
  exits (snd (step_turn s t)) = true -> fst (step_turn s t) = init.
Proof.
  intros Hx. pose proof Hx as Hx'.
  apply step_exits_iff in Hx' as (Ha & Hf & Hq & Hr).
  destruct s as [ct rt a tc]. simpl in Ha, Hr. subst a.
  unfold step_turn. rewrite step_active_eq. cbv zeta.
  rewrite Hf, Hq. apply Nat.leb_le in Hr. rewrite Hr. reflexivity.
Qed.

(** X5.  An exit forgets the episode: when the turn after the turns [l1]
    is an exit, the machine is again as constructed, so the turns [l2]
    that follow get the outputs that a fresh machine gives them. *)
Theorem run_restarts_after_exit (l1 : list Turn) (t : Turn) (l2 : list Turn) :
  exits (snd (step_turn (final init l1) t)) = true ->
  final init (l1 ++ [t]) = init /\
  outputs init (l1 ++ t :: l2) = outputs init (l1 ++ [t]) ++ outputs init l2 /\
  final init (l1 ++ t :: l2) = final init l2.
Proof.
  intros Hx. pose proof (step_exit_init _ _ Hx) as Hi.
  assert (Hf : final init (l1 ++ [t]) = init) by (rewrite final_snoc; exact Hi).
  split; [exact Hf|].
  replace (l1 ++ t :: l2) with ((l1 ++ [t]) ++ l2)
    by (rewrite <- app_assoc; reflexivity).
  split.
  - rewrite outputs_app, Hf. reflexivity.
  - rewrite (final_app init (l1 ++ [t]) l2), Hf. reflexivity.
Qed.

Lemma run_restarts_after_exit_witness :
  final init (readings epoch (take 6 relapse) ++ [mkTurn (mkPsiState 0.2 0.05) false epoch]) = init.
Proof.
  apply (run_restarts_after_exit (readings epoch (take 6 relapse))
           (mkTurn (mkPsiState 0.2 0.05) false epoch) []).
  vm_compute. reflexivity.
Defined.

(** The recovery counter after a step: zero, or one more than before on a
    recovery turn of an active machine. *)
Lemma step_recovery_turns s t :
  recovery_turns (fst (step_turn s t)) = 0 \/
  (recovery_turns (fst (step_turn s t)) = recovery_turns s + 1 /\
   recovers t = true /\ active s = true) \/
  (recovery_turns (fst (step_turn s t)) = recovery_turns s /\
   active s = false).
Proof.
  unfold recovers, recovery_tick.
  destruct s as [ct rt a tc]. step_cases; leb_lia; subst; simpl;
    try (left; reflexivity);
    try (right; left; repeat split; reflexivity);
    try (right; right; repeat split; reflexivity).
Qed.

(** Only an alert turns an inactive machine active. *)
Lemma step_activates_emits s t :
  active s = false -> active (fst (step_turn s t)) = true ->
  emits (snd (step_turn s t)) = true.
Proof.
  destruct s as [ct rt a tc]. step_cases; leb_lia; subst;
    intros; (reflexivity || congruence).
Qed.

(** A machine that stands active has seen at least two turns. *)
Lemma active_before_two (turns : list Turn) n :
  n <= length turns -> active (before turns n) = true -> 2 <= n.
Proof.
  induction n as [|n IH]; intros Hlen Ha.
  - discriminate.
  - destruct (lookup_lt_is_Some_2 turns n) as [t Ht]; [lia|].
    rewrite (before_S _ _ _ Ht) in Ha.
    destruct (active (before turns n)) eqn:Hb.
    + specialize (IH ltac:(lia) eq_refl). lia.
    + assert (He : emits (snd (step_turn (before turns n) t)) = true).
      { apply step_activates_emits; assumption. }
      apply step_emits_iff in He as (_ & _ & Hc).
      destruct (crisis_turns_before turns n Hc) as (m & _ & -> & _); lia.
Qed.

(** Each unit of the recovery counter stands for a recovery turn of an
    active machine, the latest ones of the run. *)
Lemma recovery_turns_before (turns : list Turn) n :
  n <= length turns ->
  forall j, j < recovery_turns (before turns n) ->
    j < n /\
    exists t, turns !! (n - 1 - j) = Some t /\ recovers t = true /\
              active (before turns (n - 1 - j)) = true.
Proof.
  induction n as [|n IH]; intros Hlen j Hj.
  - unfold before in Hj. simpl in Hj. lia.
  - destruct (lookup_lt_is_Some_2 turns n) as [t Ht]; [lia|].
    rewrite (before_S _ _ _ Ht) in Hj.
    destruct (step_recovery_turns (before turns n) t)
      as [H0|[(Hs & Hr & Ha)|(Hs & Ha)]].
    + lia.
    + rewrite Hs in Hj. destruct j as [|j].
      * split; [lia|]. replace (S n - 1 - 0) with n by lia.
        exists t. repeat split; assumption.
      * destruct (IH ltac:(lia) j ltac:(lia)) as (Hjn & u & Hu & Hru & Hau).
        split; [lia|]. replace (S n - 1 - S j) with (n - 1 - j) by lia.
        exists u. repeat split; assumption.
    + destruct (at_rest_before turns n) as [Hrest _].
      destruct (Hrest Ha) as [H0 _]. lia.
Qed.

(** X6.  An exit has three recovery turns behind it: in a run from a
    fresh machine, a turn that leaves the crisis state (tier COHERENCE)
    is at index 4 or later, and it and the two turns before it all have no
    hard flag and [psi >= 0.10], on a machine that was active throughout. *)
Theorem exit_needs_three_recovery_turns (turns : list Turn) n r :
  outputs init turns !! n = Some r -> exits r = true ->
  exists m a b c,
    n = m + 4 /\
    turns !! (m + 2) = Some a /\ turns !! (m + 3) = Some b /\
    turns !! (m + 4) = Some c /\
    recovers a = true /\ recovers b = true /\ recovers c = true /\
    active (before turns (m + 2)) = true.
Proof.
  intros Hr Hx. destruct (output_at _ _ _ Hr) as (c & Hc & ->).
  pose proof (lookup_lt_Some _ _ _ Hc) as Hlen.
  pose proof (step_exits_recovers _ _ Hx) as Hrc.
  apply step_exits_iff in Hx as (Hact & _ & _ & Hrt).
  destruct (recovery_turns_before turns n ltac:(lia) 0 ltac:(lia))
    as (H0 & b & Hb & Hrb & _).
  destruct (recovery_turns_before turns n ltac:(lia) 1 ltac:(lia))
    as (H1 & a & Ha & Hra & Haa).
  pose proof (active_before_two turns (n - 1 - 1) ltac:(lia) Haa) as H2.
  exists (n - 4), a, b, c.
  replace (n - 4 + 2) with (n - 1 - 1) by lia.
  replace (n - 4 + 3) with (n - 1 - 0) by lia.
  replace (n - 4 + 4) with n by lia.
  repeat split; assumption.
Qed.

Lemma exit_needs_three_recovery_turns_witness :
  exists m a b c,
    6 = m + 4 /\
    readings epoch relapse !! (m + 2) = Some a /\
    readings epoch relapse !! (m + 3) = Some b /\
    readings epoch relapse !! (m + 4) = Some c /\
    recovers a = true /\ recovers b = true /\ recovers c = true /\
    active (before (readings epoch relapse) (m + 2)) = true.
Proof.
  eapply (exit_needs_three_recovery_turns (readings epoch relapse) 6).
  - vm_compute. reflexivity.
  - reflexivity.
Defined.

End CPhaseFacts.

(** ** The tier selector *)

Section ACPFacts.

Import ACP.

(** *** Which tier *)

Lemma decide_tier cfg psi dpsi_dt comps hard_flags context_tag :
  tier (decide cfg psi dpsi_dt comps hard_flags context_tag) =
  let flags := match hard_flags with Some f => f | None => [] end in
  if _needs_safety cfg psi dpsi_dt comps flags then SAFETY
  else if _needs_coherence cfg psi dpsi_dt comps flags then COHERENCE
  else TRUTH.
Proof.
  unfold decide. cbv zeta.
  destruct (_needs_safety _ _ _ _ _); [reflexivity|].
  destruct (_needs_coherence _ _ _ _ _); reflexivity.
Qed.

(** The test that [decide] makes first, in the words of the source: only
    the key ["explicit_self_harm"] of the flags is read. *)
Lemma decide_safety_iff cfg psi dpsi_dt comps hard_flags context_tag :
  tier (decide cfg psi dpsi_dt comps hard_flags context_tag) = SAFETY <->
  flags_get "explicit_self_harm" false
    (match hard_flags with Some f => f | None => [] end) = true \/
  (psi < crisis_threshold cfg)%Q \/
  ((dpsi_dt <= rapid_decline cfg)%Q /\
   ((comps_get "P_align" 1.0 comps < 0.10)%Q \/
    (comps_get "I" 1.0 comps < 0.10)%Q)).
Proof.
  rewrite decide_tier. cbv zeta. unfold _needs_safety.
  set (flags := match hard_flags with Some f => f | None => [] end).
  rewrite <- !Qlt_bool_iff, <- Qle_bool_iff.
  destruct (flags_get _ _ flags); [intuition|].
  destruct (Qlt_bool psi _); [intuition|].
  destruct (Qle_bool dpsi_dt _), (Qlt_bool (comps_get "P_align" _ _) _),
    (Qlt_bool (comps_get "I" _ _) _); cbn;
    try (destruct (_needs_coherence _ _ _ _ _));
    intuition discriminate.
Qed.

(** C3.  The claim asks for SAFETY whenever any hard flag is set; the code
    reads only ["explicit_self_harm"].  With [hard_flags = {"violence":
    True}] on a steady turn ([psi = 0.5832], [dpsi_dt = 0.0]) a hard flag
    is set and [decide] returns TRUTH; its rationale lists the tripped
    flag next to the clause that says there is none. *)
Theorem decide_violence_flag_is_truth :
  any_flag [("violence"%string, true)] = true /\
  tier (decide ACPConfig_default 0.5832 0.0 steady
          (Some [("violence"%string, true)]) None) = TRUTH /\
  rationale (decide ACPConfig_default 0.5832 0.0 steady
               (Some [("violence"%string, true)]) None) =
  "Tier=TRUTH | Ψ=0.583 | dΨ/dt=+0.000 | E=0.90, I=0.90, O=0.80, P_align=0.90 | flags=violence | Ψ above caution band with no hard-risk flags; proceed with normal reasoning."%string /\
  tier (decide ACPConfig_default 0.5832 0.0 steady
          (Some [("explicit_self_harm"%string, true)]) None) = SAFETY.
Proof. repeat split; vm_compute; reflexivity. Qed.

(** *** The rationale of a rapid decline *)

Lemma flags_get_any key flags :
  any_flag flags = false -> flags_get key false flags = false.
Proof.
  unfold any_flag. induction flags as [|[k v] rest IH]; simpl; intros H.
  - reflexivity.
  - apply orb_false_iff in H as [-> H]. destruct (String.eqb k key); auto.
Qed.

(** C8, as the specification states it, fails in its second half: for
    [psi=0.07, dpsi_dt=-0.60] and the components of sample 3
    ([P_align=0.09]) the tier is SAFETY, but the rationale gives the fixed
    SAFETY clause as the reason and names neither a rapid decline nor a
    low purpose-alignment; it gives the same clause when psi is below the
    crisis threshold with a rising trend and a high [P_align]. *)
Lemma rationale_of_sample3_has_fixed_clause :
  tier (decide ACPConfig_default 0.07 (-0.60) sample3 None None) = SAFETY /\
  rationale (decide ACPConfig_default 0.07 (-0.60) sample3 None None) =
  "Tier=SAFETY | Ψ=0.070 | dΨ/dt=-0.600 | E=0.80, I=0.08, O=0.45, P_align=0.09 | Crisis threshold or explicit risk triggered. Normal reasoning suspended."%string /\
  PyFormat.contains "apid"
    (rationale (decide ACPConfig_default 0.07 (-0.60) sample3 None None))
    = false /\
  PyFormat.contains "ecline"
    (rationale (decide ACPConfig_default 0.07 (-0.60) sample3 None None))
    = false /\
  PyFormat.contains "urpose"
    (rationale (decide ACPConfig_default 0.07 (-0.60) sample3 None None))
    = false /\
  rationale (decide ACPConfig_default 0.01 0.30 steady None None) =
  "Tier=SAFETY | Ψ=0.010 | dΨ/dt=+0.300 | E=0.90, I=0.90, O=0.80, P_align=0.90 | Crisis threshold or explicit risk triggered. Normal reasoning suspended."%string.
Proof. repeat split; vm_compute; reflexivity. Qed.

(** C8, amended: for [psi = 0.07], [dpsi_dt = -0.60], [P_align = 0.09],
    no hard flag set and the default thresholds, whatever the other
    components, [decide] returns tier SAFETY, and the rationale is the
    tier, the three values ["Ψ=0.070"], ["dΨ/dt=-0.600"] and
    ["P_align=0.09"] among the clamped components, and the fixed SAFETY
    clause "Crisis threshold or explicit risk triggered. Normal reasoning
    suspended.", joined by [" | "]. *)
Theorem decide_rapid_decline_low_p_align (comps : Components)
    (hard_flags : option Flags) (context_tag : option string) :
  comps !! "P_align"%string = Some 0.09%Q ->
  any_flag (match hard_flags with Some f => f | None => [] end) = false ->
  tier (decide ACPConfig_default 0.07 (-0.60) comps hard_flags context_tag)
    = SAFETY /\
  rationale (decide ACPConfig_default 0.07 (-0.60) comps hard_flags context_tag)
    = PyFormat.join " | "
        [ "Tier=SAFETY"; "Ψ=0.070"; "dΨ/dt=-0.600";
          "E=" ++ PyFormat.format_f false 2 (_clamp01 (comps_get "E" 0.0 comps))
          ++ ", I=" ++ PyFormat.format_f false 2 (_clamp01 (comps_get "I" 0.0 comps))
          ++ ", O=" ++ PyFormat.format_f false 2 (_clamp01 (comps_get "O" 0.0 comps))
          ++ ", P_align=0.09";
          "Crisis threshold or explicit risk triggered. Normal reasoning suspended." ]%string.
Proof.
  intros Hp Hf.
  assert (Hs : _needs_safety ACPConfig_default 0.07 (-0.60) comps
                 (match hard_flags with Some f => f | None => [] end) = true).
  { unfold _needs_safety. rewrite (flags_get_any _ _ Hf).
    unfold comps_get at 1. rewrite Hp. reflexivity. }
  unfold decide. cbv zeta. rewrite Hs.
  split; [reflexivity|].
  unfold _make_safety_decision, rationale, _compose_rationale.
  rewrite Hf. unfold comps_get at 4. rewrite Hp. reflexivity.
Qed.

Lemma decide_rapid_decline_low_p_align_witness :
  tier (decide ACPConfig_default 0.07 (-0.60) sample3 None (Some "chat"%string))
    = SAFETY.
Proof.
  apply (decide_rapid_decline_low_p_align sample3 None (Some "chat"%string));
    reflexivity.
Defined.

(** *** Missing components *)










(** *** The tier table *)

Lemma needs_safety_iff cfg psi dpsi_dt comps flags :
  _needs_safety cfg psi dpsi_dt comps flags = true <->
  flags_get "explicit_self_harm" false flags = true \/
  (psi < crisis_threshold cfg)%Q \/
  ((dpsi_dt <= rapid_decline cfg)%Q /\
   ((comps_get "P_align" 1.0 comps < 0.10)%Q \/
    (comps_get "I" 1.0 comps < 0.10)%Q)).
Proof.
  unfold _needs_safety.
  rewrite <- !Qlt_bool_iff, <- Qle_bool_iff.
  destruct (flags_get _ _ flags); [intuition|].
  destruct (Qlt_bool psi _); [intuition|].
  destruct (Qle_bool dpsi_dt _), (Qlt_bool (comps_get "P_align" _ _) _),
    (Qlt_bool (comps_get "I" _ _) _); cbn; intuition discriminate.
Qed.

Lemma needs_coherence_iff cfg psi dpsi_dt comps flags :
  _needs_coherence cfg psi dpsi_dt comps flags = true <->
  flags_get "explicit_self_harm" false flags = false /\
  (((crisis_threshold cfg <= psi)%Q /\ (psi < caution_band cfg)%Q) \/
   ((caution_band cfg <= psi)%Q /\
    (comps_get "P_align" 1.0 comps < 0.20)%Q /\ (dpsi_dt < 0)%Q)).
Proof.
  unfold _needs_coherence.
  assert (Hd : Qlt_bool dpsi_dt 0.0 = true <-> (dpsi_dt < 0)%Q).
  { rewrite Qlt_bool_iff. split; intros H; lra. }
  rewrite <- Hd, <- !Qlt_bool_iff, <- !Qle_bool_iff.
  destruct (flags_get _ _ flags); [intuition discriminate|].
  destruct (Qle_bool (crisis_threshold cfg) psi), (Qlt_bool psi _),
    (Qle_bool (caution_band cfg) psi),
    (Qlt_bool (comps_get "P_align" _ _) _), (Qlt_bool dpsi_dt _);
    cbn; intuition discriminate.
Qed.

(** X7.  The tier that [decide] selects, for any thresholds.  SAFETY:
    the flag ["explicit_self_harm"] is set, or [psi < crisis_threshold],
    or [dpsi_dt <= rapid_decline] with [P_align < 0.10] or [I < 0.10].
    COHERENCE: none of these, and [crisis_threshold <= psi <
    caution_band], or [psi >= caution_band] with [P_align < 0.20] and
    [dpsi_dt < 0].  TRUTH: neither.  A missing [P_align] or [I] reads as
    1.0.  So TRUTH is never selected with psi below the caution band. *)
Theorem decide_tier_table (cfg : ACPConfig) (psi dpsi_dt : Q)
    (comps : Components) (hard_flags : option Flags)
    (context_tag : option string) :
  let flags := match hard_flags with Some f => f | None => [] end in
  let safety :=
    flags_get "explicit_self_harm" false flags = true \/
    (psi < crisis_threshold cfg)%Q \/
    ((dpsi_dt <= rapid_decline cfg)%Q /\
     ((comps_get "P_align" 1.0 comps < 0.10)%Q \/
      (comps_get "I" 1.0 comps < 0.10)%Q)) in
  let coherence :=
    ((crisis_threshold cfg <= psi)%Q /\ (psi < caution_band cfg)%Q) \/
    ((caution_band cfg <= psi)%Q /\
     (comps_get "P_align" 1.0 comps < 0.20)%Q /\ (dpsi_dt < 0)%Q) in
  (tier (decide cfg psi dpsi_dt comps hard_flags context_tag) = SAFETY
   <-> safety) /\
  (tier (decide cfg psi dpsi_dt comps hard_flags context_tag) = COHERENCE
   <-> ~ safety /\ coherence) /\
  (tier (decide cfg psi dpsi_dt comps hard_flags context_tag) = TRUTH
   <-> ~ safety /\ ~ coherence) /\
  (tier (decide cfg psi dpsi_dt comps hard_flags context_tag) = TRUTH ->
   (caution_band cfg <= psi)%Q /\ (crisis_threshold cfg <= psi)%Q).
Proof.
  cbv zeta. rewrite decide_tier. cbv zeta.
  set (flags := match hard_flags with Some f => f | None => [] end).
  pose proof (needs_safety_iff cfg psi dpsi_dt comps flags) as Hs.
  pose proof (needs_coherence_iff cfg psi dpsi_dt comps flags) as Hc.
  set (safety :=
    flags_get "explicit_self_harm" false flags = true \/
    (psi < crisis_threshold cfg)%Q \/
    ((dpsi_dt <= rapid_decline cfg)%Q /\
     ((comps_get "P_align" 1.0 comps < 0.10)%Q \/
      (comps_get "I" 1.0 comps < 0.10)%Q))) in *.
  set (coherence :=
    ((crisis_threshold cfg <= psi)%Q /\ (psi < caution_band cfg)%Q) \/
    ((caution_band cfg <= psi)%Q /\
     (comps_get "P_align" 1.0 comps < 0.20)%Q /\ (dpsi_dt < 0)%Q)) in *.
  destruct (_needs_safety cfg psi dpsi_dt comps flags).
  - assert (Hsafe : safety) by (apply Hs; reflexivity).
    clearbody safety coherence.
    repeat split; try discriminate; try tauto.
  - assert (Hnot : ~ safety) by (intros H; apply Hs in H; discriminate).
    assert (Hflag : flags_get "explicit_self_harm" false flags = false).
    { destruct (flags_get _ _ flags) eqn:E; [|reflexivity].
      exfalso. apply Hnot. left. reflexivity. }
    assert (Hcris : (crisis_threshold cfg <= psi)%Q).
    { apply Qnot_lt_le. intros H. apply Hnot. right. left. exact H. }
    destruct (_needs_coherence cfg psi dpsi_dt comps flags).
    + assert (Hcoh : coherence) by (apply Hc; reflexivity).
      clearbody safety coherence.
      repeat split; try discriminate; try tauto.
    + assert (Hncoh : ~ coherence).
      { intros H. assert (Hf : false = true) by (apply Hc; split; assumption).
        discriminate. }
      assert (Hcaut : (caution_band cfg <= psi)%Q).
      { apply Qnot_lt_le. intros H. apply Hncoh. left. split; assumption. }
      clearbody safety coherence.
      repeat split; try discriminate; try tauto.
Qed.

Lemma decide_tier_table_witness :
  tier (decide ACPConfig_default 0.11 0.10 sample3 None None) = COHERENCE.
Proof.
  apply (decide_tier_table ACPConfig_default 0.11 0.10 sample3 None None).
  split.
  - intros [H|[H|[H _]]]; vm_compute in H;
      [discriminate | discriminate | apply H; reflexivity].
  - left. split; vm_compute; [discriminate | reflexivity].
Defined.

Lemma severity_decide cfg psi dpsi_dt comps hard_flags context_tag :
  severity (tier (decide cfg psi dpsi_dt comps hard_flags context_tag)) =
  let flags := match hard_flags with Some f => f | None => [] end in
  if _needs_safety cfg psi dpsi_dt comps flags then 2
  else if _needs_coherence cfg psi dpsi_dt comps flags then 1 else 0.
Proof.
  rewrite decide_tier. cbv zeta.
  destruct (_needs_safety _ _ _ _ _); [reflexivity|].
  destruct (_needs_coherence _ _ _ _ _); reflexivity.
Qed.

(** X8.  A better reading never gives a more severe tier: with the other
    inputs fixed, and for any thresholds, raising psi or raising dpsi_dt
    leaves the tier where it is or moves it down the order SAFETY,
    COHERENCE, TRUTH. *)
Theorem decide_tier_is_monotone (cfg : ACPConfig) (comps : Components)
    (hard_flags : option Flags) (context_tag : option string)
    (psi psi' dpsi_dt dpsi_dt' : Q) :
  (psi <= psi')%Q -> (dpsi_dt <= dpsi_dt')%Q ->
  severity (tier (decide cfg psi' dpsi_dt' comps hard_flags context_tag)) <=
  severity (tier (decide cfg psi dpsi_dt comps hard_flags context_tag)).
Proof.
  intros Hp Hd. rewrite !severity_decide. cbv zeta.
  set (flags := match hard_flags with Some f => f | None => [] end).
  pose proof (needs_safety_iff cfg psi dpsi_dt comps flags) as Hs.
  pose proof (needs_safety_iff cfg psi' dpsi_dt' comps flags) as Hs'.
  pose proof (needs_coherence_iff cfg psi dpsi_dt comps flags) as Hc.
  pose proof (needs_coherence_iff cfg psi' dpsi_dt' comps flags) as Hc'.
  destruct (_needs_safety cfg psi dpsi_dt comps flags) eqn:E1; [
    destruct (_needs_safety cfg psi' dpsi_dt' comps flags);
    [lia | destruct (_needs_coherence cfg psi' dpsi_dt' comps flags); lia] |].
  destruct (_needs_safety cfg psi' dpsi_dt' comps flags) eqn:E2.
  - exfalso. assert (Ht : true = true) by reflexivity.
    apply Hs' in Ht. assert (Hn : ~ (false = true)) by discriminate.
    apply Hn, Hs. destruct Ht as [H|[H|[H1 H2]]].
    + left. exact H.
    + right. left. lra.
    + right. right. split; [lra | exact H2].
  - destruct (_needs_coherence cfg psi' dpsi_dt' comps flags) eqn:E4;
      [|destruct (_needs_coherence cfg psi dpsi_dt comps flags); lia].
    destruct (_needs_coherence cfg psi dpsi_dt comps flags) eqn:E3; [lia|].
    exfalso. assert (Ht : true = true) by reflexivity.
    apply Hc' in Ht. destruct Ht as [Hf Hb].
    assert (Hn : ~ (false = true)) by discriminate.
    assert (Hnot : ~ (psi < crisis_threshold cfg)%Q).
    { intros H. apply Hn, Hs. right. left. exact H. }
    apply Qnot_lt_le in Hnot.
    apply Hn, Hc. split; [exact Hf|].
    destruct (Qlt_le_dec psi (caution_band cfg)) as [Hlt|Hge].
    + left. split; assumption.
    + right. destruct Hb as [[_ Hb]|(_ & Hpa & Hfall)].
      * exfalso. lra.
      * split; [exact Hge|]. split; [exact Hpa | lra].
Qed.

Lemma decide_tier_is_monotone_witness :
  severity (tier (decide ACPConfig_default 0.40 0.05 sample3 None None)) <=
  severity (tier (decide ACPConfig_default 0.07 (-0.60) sample3 None None)).
Proof.
  apply (decide_tier_is_monotone ACPConfig_default sample3 None None
           0.07 0.40 (-0.60) 0.05); vm_compute; discriminate.
Defined.

(** *** The audit bundle *)

Lemma clamp01_in_unit x : (0 <= _clamp01 x <= 1)%Q.
Proof.
  unfold _clamp01, py_max, py_min.
  destruct (Qlt_bool x 1.0) eqn:H1.
  - destruct (Qlt_bool 0.0 x) eqn:H0.
    + apply Qlt_bool_iff in H1, H0. split; lra.
    + split; vm_compute; discriminate.
  - destruct (Qlt_bool 0.0 1.0) eqn:H0; split; vm_compute; discriminate.
Qed.

(** X9.  [_clamp01] brings any value into [0,1]: the result is always
    in the interval, a value already in it is returned unchanged (as a
    number), a negative value gives 0 and a value above 1 gives 1. *)
Theorem clamp01_clamps (x : Q) :
  (0 <= _clamp01 x <= 1)%Q /\
  ((0 <= x <= 1)%Q -> (_clamp01 x == x)%Q) /\
  ((x < 0)%Q -> (_clamp01 x == 0)%Q) /\
  ((1 < x)%Q -> (_clamp01 x == 1)%Q).
Proof.
  split; [apply clamp01_in_unit|].
  unfold _clamp01, py_max, py_min.
  destruct (Qlt_bool x 1.0) eqn:H1.
  - apply Qlt_bool_iff in H1. destruct (Qlt_bool 0.0 x) eqn:H0.
    + apply Qlt_bool_iff in H0.
      repeat split; intros; try reflexivity; exfalso; lra.
    + apply Qlt_bool_false_iff in H0.
      repeat split; intros; try lra.
  - apply Qlt_bool_false_iff in H1.
    assert (H0 : Qlt_bool 0.0 1.0 = true) by reflexivity. rewrite H0.
    repeat split; intros; try lra.
Qed.

Lemma clamp01_clamps_witness :
  (_clamp01 0.42 == 0.42)%Q /\ (_clamp01 (-3) == 0)%Q /\ (_clamp01 1.7 == 1)%Q.
Proof.
  destruct (clamp01_clamps 0.42) as (_ & H1 & _).
  destruct (clamp01_clamps (-3)) as (_ & _ & H2 & _).
  destruct (clamp01_clamps 1.7) as (_ & _ & _ & H3).
  split; [apply H1; split; vm_compute; discriminate|].
  split; [apply H2; vm_compute; reflexivity | apply H3; vm_compute; reflexivity].
Defined.

(** X10.  A decision agrees with itself and with its inputs: the audit
    bundle names the tier of the decision, and so does the head of the
    rationale; the bundle echoes psi, dpsi_dt, the four thresholds and the
    flags as given; the four reported components lie in [0,1] whatever
    the dict holds; the context is never empty; and [autonomous_action]
    is False. *)
Theorem decision_echoes_inputs (cfg : ACPConfig) (psi dpsi_dt : Q)
    (comps : Components) (hard_flags : option Flags)
    (context_tag : option string) :
  let d := decide cfg psi dpsi_dt comps hard_flags context_tag in
  selected_tier (signals d) = Tier_value (tier d) /\
  String.prefix ("Tier=" ++ Tier_value (tier d) ++ " | ")%string
    (rationale d) = true /\
  thresholds (signals d) = cfg /\
  m_psi (metrics (signals d)) = psi /\
  m_dpsi_dt (metrics (signals d)) = dpsi_dt /\
  flags_echo (signals d) = match hard_flags with Some f => f | None => [] end /\
  (0 <= m_E (metrics (signals d)) <= 1)%Q /\
  (0 <= m_I (metrics (signals d)) <= 1)%Q /\
  (0 <= m_O (metrics (signals d)) <= 1)%Q /\
  (0 <= m_P_align (metrics (signals d)) <= 1)%Q /\
  context (signals d) <> ""%string /\
  autonomous_action d = false.
Proof.
  cbv zeta. unfold decide. cbv zeta.
  set (flags := match hard_flags with Some f => f | None => [] end).
  assert (Hctx : context_or_unspecified context_tag <> ""%string).
  { destruct context_tag as [[|c tag]|]; discriminate. }
  destruct cfg as [ct cb rd mh].
  destruct (_needs_safety _ _ _ _ _);
    [|destruct (_needs_coherence _ _ _ _ _)];
    cbn [tier rationale signals autonomous_action _make_safety_decision
         _make_coherence_decision _make_truth_decision _signals_dict
         selected_tier thresholds metrics m_psi m_dpsi_dt m_E m_I m_O
         m_P_align flags_echo context crisis_threshold caution_band
         rapid_decline min_c_phase_hold Tier_value];
    unfold _compose_rationale; destruct (any_flag flags);
    (repeat split; try apply clamp01_in_unit; try exact Hctx;
     repeat match goal with
       | |- context [PyFormat.format_f ?a ?b ?c] =>
           generalize (PyFormat.format_f a b c); intro
       end;
     try (generalize (tripped flags); intro);
     vm_compute; reflexivity).
Qed.

Lemma decision_echoes_inputs_witness :
  selected_tier
    (signals (decide ACPConfig_default 0.07 (-0.60) sample3 None None))
  = "SAFETY"%string.
Proof.
  apply (decision_echoes_inputs ACPConfig_default 0.07 (-0.60) sample3
           None None).
Defined.

End ACPFacts.

(** ** The trajectory store *)

Section MonitorFacts.

Import Monitor.

Local Open Scope list_scope.

(** Every call appends exactly one snapshot, built from the call and the
    last snapshot. *)
Lemma update_call_snapshots self c :
  snapshots (update_call self c) =
  snapshots self ++
  [ {| timestamp := (time_time (c_clock c) - start_time self)%Q;
       E := c_E c; I := c_I c; O := c_O c; P_align := c_P_align c;
       psi := (c_E c * c_I c * c_O c * c_P_align c)%Q;
       dpsi_dt :=
         backward_difference (last (snapshots self))
           (time_time (c_clock c) - start_time self)%Q
           (c_E c * c_I c * c_O c * c_P_align c)%Q |} ].
Proof.
  unfold update_call, update.
  destruct (Qlt_bool _ (threshold self)); reflexivity.
Qed.

Lemma update_call_start_time self c :
  start_time (update_call self c) = start_time self.
Proof.
  unfold update_call, update.
  destruct (Qlt_bool _ (threshold self)); reflexivity.
Qed.

Lemma session_snoc self calls c :
  session self (calls ++ [c]) = update_call (session self calls) c.
Proof. unfold session. rewrite fold_left_app. reflexivity. Qed.

Lemma session_start_time self calls :
  start_time (session self calls) = start_time self.
Proof.
  induction calls as [|c calls IH] using rev_ind.
  - reflexivity.
  - rewrite session_snoc, update_call_start_time. exact IH.
Qed.

Lemma backward_difference_spec prev now psi_now :
  ((0 < now - timestamp prev)%Q ->
   backward_difference (Some prev) now psi_now =
     Some ((psi_now - psi prev) / (now - timestamp prev))%Q) /\
  ((now - timestamp prev <= 0)%Q ->
   backward_difference (Some prev) now psi_now = None).
Proof.
  unfold backward_difference. split; intros H.
  - apply Qlt_bool_iff in H. rewrite H. reflexivity.
  - apply Qlt_bool_false_iff in H. rewrite H. reflexivity.
Qed.

Lemma linked_snoc ss now e i o p psi_now :
  linked ss ->
  linked (ss ++ [mkPsiSnapshot now e i o p psi_now
                   (backward_difference (last ss) now psi_now)]).
Proof.
  intros [H0 Hn]. split.
  - intros s Hs. destruct ss as [|s0 ss].
    + simpl in Hs. injection Hs as <-. reflexivity.
    + simpl in Hs. injection Hs as <-. apply H0. reflexivity.
  - intros n a b Ha Hb.
    destruct (Nat.lt_ge_cases (S n) (length ss)) as [Hlt|Hge].
    + rewrite lookup_app_l in Ha by lia. rewrite lookup_app_l in Hb by lia.
      exact (Hn n a b Ha Hb).
    + pose proof (lookup_lt_Some _ _ _ Hb) as Hlen.
      rewrite length_app in Hlen. simpl in Hlen.
      assert (Hn' : S n = length ss) by lia.
      rewrite lookup_app_l in Ha by lia.
      rewrite lookup_app_r in Hb by lia.
      replace (S n - length ss) with 0 in Hb by lia.
      simpl in Hb. injection Hb as <-.
      assert (Hlast : last ss = Some a).
      { rewrite last_lookup, <- Hn'. exact Ha. }
      rewrite Hlast. simpl. apply backward_difference_spec.
Qed.

Lemma linked_session self calls :
  linked (snapshots self) -> linked (snapshots (session self calls)).
Proof.
  intros H. induction calls as [|c calls IH] using rev_ind.
  - exact H.
  - rewrite session_snoc, update_call_snapshots. apply linked_snoc, IH.
Qed.

Lemma session_length self calls :
  length (snapshots (session self calls)) =
  length (snapshots self) + length calls.
Proof.
  induction calls as [|c calls IH] using rev_ind.
  - simpl. lia.
  - rewrite session_snoc, update_call_snapshots, !length_app, IH. simpl. lia.
Qed.

(** Snapshot [n] of a session started empty records call [n]. *)
Lemma session_lookup threshold start calls n s :
  snapshots (session (new threshold start) calls) !! n = Some s ->
  exists c,
    calls !! n = Some c /\
    timestamp s = (time_time (c_clock c) - start)%Q /\
    psi s = (c_E c * c_I c * c_O c * c_P_align c)%Q /\
    psi s = (E s * I s * O s * P_align s)%Q.
Proof.
  revert n s. induction calls as [|c calls IH] using rev_ind; intros n s.
  - destruct n; discriminate.
  - rewrite session_snoc, update_call_snapshots, session_start_time.
    pose proof (session_length (new threshold start) calls) as Hlen.
    simpl in Hlen.
    destruct (Nat.lt_ge_cases n (length calls)) as [Hlt|Hge].
    + rewrite lookup_app_l by lia. intros Hs.
      destruct (IH _ _ Hs) as (c0 & Hc0 & Hrest).
      exists c0. split; [|exact Hrest]. rewrite lookup_app_l by lia. exact Hc0.
    + intros Hs. pose proof (lookup_lt_Some _ _ _ Hs) as Hn.
      rewrite length_app in Hn. simpl in Hn.
      rewrite lookup_app_r in Hs by lia.
      replace (n - length (snapshots (session (new threshold start) calls)))
        with 0 in Hs by lia.
      simpl in Hs. injection Hs as <-.
      exists c. rewrite lookup_app_r by lia.
      replace (n - length calls) with 0 by lia.
      repeat split; reflexivity.
Qed.

(** C6.  In every session of a monitor that starts empty, whatever the
    clock reads: each call appends one snapshot; the first snapshot has
    [dpsi_dt = None]; and for every snapshot [b] after a snapshot [a], with
    [dt = t_b - t_a], [dpsi_dt] of [b] is [(psi_b - psi_a) / dt] when
    [dt > 0] and [None], with nothing divided, when [dt <= 0].  The
    timestamp of a snapshot is the clock reading of its call less the
    start time, and its psi is the product of the four components. *)
Theorem snapshot_derivative_is_backward_difference
    (threshold start : Q) (calls : list Call) :
  length (snapshots (session (new threshold start) calls)) = length calls /\
  (forall s,
     snapshots (session (new threshold start) calls) !! 0 = Some s ->
     dpsi_dt s = None) /\
  (forall n a b,
     snapshots (session (new threshold start) calls) !! n = Some a ->
     snapshots (session (new threshold start) calls) !! S n = Some b ->
     ((0 < timestamp b - timestamp a)%Q ->
      dpsi_dt b =
        Some ((psi b - psi a) / (timestamp b - timestamp a))%Q) /\
     ((timestamp b - timestamp a <= 0)%Q -> dpsi_dt b = None)) /\
  (forall n s,
     snapshots (session (new threshold start) calls) !! n = Some s ->
     exists c,
       calls !! n = Some c /\
       timestamp s = (time_time (c_clock c) - start)%Q /\
       psi s = (c_E c * c_I c * c_O c * c_P_align c)%Q /\
       psi s = (E s * I s * O s * P_align s)%Q).
Proof.
  assert (Hl : linked (snapshots (session (new threshold start) calls))).
  { apply linked_session. split.
    - intros s H. discriminate.
    - intros n a b H. discriminate. }
  destruct Hl as [H0 Hn].
  split; [apply session_length|]. split; [exact H0|]. split; [exact Hn|].
  intros n s. apply session_lookup.
Qed.

Lemma snapshot_derivative_is_backward_difference_witness :
  (exists a b,
     snapshots (session (new 0.05 100) demo_calls) !! 0 = Some a /\
     snapshots (session (new 0.05 100) demo_calls) !! 1 = Some b /\
     dpsi_dt a = None /\
     dpsi_dt b = Some ((psi b - psi a) / (timestamp b - timestamp a))%Q) /\
  (exists c,
     snapshots (session (new 0.05 100) demo_calls) !! 2 = Some c /\
     dpsi_dt c = None).
Proof.
  destruct (snapshot_derivative_is_backward_difference 0.05 100 demo_calls)
    as (_ & H0 & Hn & _).
  split.
  - eexists. eexists.
    split; [vm_compute; reflexivity|]. split; [vm_compute; reflexivity|].
    split.
    + eapply H0. vm_compute. reflexivity.
    + eapply (Hn 0); [vm_compute; reflexivity | vm_compute; reflexivity|].
      vm_compute. reflexivity.
  - eexists. split; [vm_compute; reflexivity|].
    eapply (Hn 1); [vm_compute; reflexivity | vm_compute; reflexivity|].
    vm_compute. discriminate.
Defined.

(** *** Bookkeeping *)

Lemma update_call_history self c :
  history (update_call self c) =
  history self ++
  [ mkMessage (time_time (c_clock c) - start_time self)%Q "user" (c_text c)
      (match c_meta c with Some m => m | None => [] end) ].
Proof.
  unfold update_call, update.
  destruct (Qlt_bool _ (threshold self)); reflexivity.
Qed.

Lemma update_call_threshold self c :
  threshold (update_call self c) = threshold self.
Proof.
  unfold update_call, update.
  destruct (Qlt_bool _ (threshold self)); reflexivity.
Qed.

Lemma update_call_alerts self c :
  alerts (update_call self c) =
  alerts self ++
  (if Qlt_bool (call_psi c) (threshold self)
   then [ mkAlertRecord (datetime_now (c_clock c)) (level_of (call_psi c))
            (call_psi c) (c_E c) (c_I c) (c_O c) (c_P_align c) (c_text c) ]
   else []).
Proof.
  unfold update_call, update, call_psi.
  destruct (Qlt_bool _ (threshold self)).
  - reflexivity.
  - simpl. rewrite app_nil_r. reflexivity.
Qed.

Lemma session_threshold self calls :
  threshold (session self calls) = threshold self.
Proof.
  induction calls as [|c calls IH] using rev_ind.
  - reflexivity.
  - rewrite session_snoc, update_call_threshold. exact IH.
Qed.

Lemma session_history_length self calls :
  length (history (session self calls)) = length (history self) + length calls.
Proof.
  induction calls as [|c calls IH] using rev_ind.
  - simpl. lia.
  - rewrite session_snoc, update_call_history, !length_app, IH. simpl. lia.
Qed.

Lemma session_alerts_length self calls :
  length (alerts (session self calls)) =
  length (alerts self) +
  length (List.filter (fun c => Qlt_bool (call_psi c) (threshold self)) calls).
Proof.
  induction calls as [|c calls IH] using rev_ind.
  - simpl. lia.
  - rewrite session_snoc, update_call_alerts, session_threshold.
    rewrite List.filter_app, !length_app, IH. simpl.
    destruct (Qlt_bool (call_psi c) (threshold self)); simpl; lia.
Qed.

(** X11.  The books of a session on a new monitor: every call adds one
    message and one snapshot; an alert is recorded for exactly the calls
    whose psi is below the threshold; every recorded alert has a psi
    below the threshold, the psi is the product of its four components,
    and its level is EXTREME below 0.005, SEVERE below 0.02 and
    DARK_NIGHT otherwise; threshold and start time never change. *)
Theorem session_bookkeeping (th start : Q) (calls : list Call) :
  length (history (session (new th start) calls)) = length calls /\
  length (snapshots (session (new th start) calls)) = length calls /\
  length (alerts (session (new th start) calls)) =
    length (List.filter (fun c => Qlt_bool (call_psi c) th) calls) /\
  Forall (fun a =>
            (a_psi a < th)%Q /\
            a_psi a = (a_E a * a_I a * a_O a * a_P_align a)%Q /\
            a_level a = level_of (a_psi a) /\
            (a_level a = "EXTREME"%string <-> (a_psi a < 0.005)%Q) /\
            (a_level a = "SEVERE"%string <->
             (0.005 <= a_psi a)%Q /\ (a_psi a < 0.02)%Q) /\
            (a_level a = "DARK_NIGHT"%string <-> (0.02 <= a_psi a)%Q))
         (alerts (session (new th start) calls)) /\
  threshold (session (new th start) calls) = th /\
  start_time (session (new th start) calls) = start.
Proof.
  assert (Hlevel : forall q,
    (level_of q = "EXTREME"%string <-> (q < 0.005)%Q) /\
    (level_of q = "SEVERE"%string <-> (0.005 <= q)%Q /\ (q < 0.02)%Q) /\
    (level_of q = "DARK_NIGHT"%string <-> (0.02 <= q)%Q)).
  { intros q. unfold level_of.
    destruct (Qlt_bool q 0.005) eqn:H1.
    - apply Qlt_bool_iff in H1.
      repeat split; intros; try reflexivity; try discriminate; try lra;
        try (exfalso; lra).
    - apply Qlt_bool_false_iff in H1. destruct (Qlt_bool q 0.02) eqn:H2.
      + apply Qlt_bool_iff in H2.
        repeat split; intros; try reflexivity; try discriminate; try lra;
          try (exfalso; lra).
      + apply Qlt_bool_false_iff in H2.
        repeat split; intros; try reflexivity; try discriminate; try lra;
          try (exfalso; lra). }
  induction calls as [|c calls IH] using rev_ind.
  - repeat split; try reflexivity. constructor.
  - destruct IH as (Hh & Hs & Ha & Hall & Ht & Hst).
    rewrite session_snoc, update_call_history, update_call_snapshots,
      update_call_alerts, update_call_threshold, update_call_start_time.
    rewrite !length_app, List.filter_app, !length_app, Hh, Hs, Ha, Ht, Hst.
    simpl. destruct (Qlt_bool (call_psi c) th) eqn:Hc.
    + repeat split; try reflexivity.
      apply Forall_app. split; [exact Hall|].
      constructor; [|constructor]. simpl.
      apply Qlt_bool_iff in Hc.
      split; [exact Hc|]. split; [reflexivity|]. split; [reflexivity|].
      apply Hlevel.
    + repeat split; try reflexivity; try lia.
      rewrite app_nil_r. exact Hall.
Qed.

Lemma session_app self calls more :
  session self (calls ++ more) = session (session self calls) more.
Proof. unfold session. apply fold_left_app. Qed.

Lemma session_grows self calls :
  history self `prefix_of` history (session self calls) /\
  snapshots self `prefix_of` snapshots (session self calls) /\
  alerts self `prefix_of` alerts (session self calls).
Proof.
  induction calls as [|c calls IH] using rev_ind.
  - repeat split; reflexivity.
  - destruct IH as (Hh & Hs & Ha).
    rewrite session_snoc, update_call_history, update_call_snapshots,
      update_call_alerts.
    repeat split; (etransitivity; [eassumption | apply prefix_app_r; reflexivity]).
Qed.

(** X12.  The three logs are append-only: whatever calls follow, the
    messages, snapshots and alerts recorded so far stay where they are,
    unchanged, at the front of the longer logs. *)
Theorem session_logs_are_append_only (self : PsiMonitor)
    (calls more : list Call) :
  history (session self calls)
    `prefix_of` history (session self (calls ++ more)) /\
  snapshots (session self calls)
    `prefix_of` snapshots (session self (calls ++ more)) /\
  alerts (session self calls)
    `prefix_of` alerts (session self (calls ++ more)) /\
  (forall n s,
     snapshots (session self calls) !! n = Some s ->
     snapshots (session self (calls ++ more)) !! n = Some s).
Proof.
  rewrite session_app.
  destruct (session_grows (session self calls) more) as (Hh & Hs & Ha).
  repeat split; try assumption.
  intros n s Hn. eapply prefix_lookup_Some; eassumption.
Qed.

(** X13.  [status] after a session on a new monitor: idle when no call
    was made; after at least one call it reports the number of calls as
    messages, the psi of the last call, the same value that the last
    [update] returned, whether that psi is below the threshold, and the
    number of alerts recorded. *)
Theorem status_reports_last_call (th start : Q) (calls : list Call) (c : Call) :
  status (new th start) = Idle /\
  status (session (new th start) (calls ++ [c])) =
    Running (length calls + 1) (call_psi c) (Qlt_bool (call_psi c) th)
      (length (List.filter (fun c => Qlt_bool (call_psi c) th) (calls ++ [c]))) /\
  snd (update (session (new th start) calls) (c_text c) (c_E c) (c_I c)
         (c_O c) (c_P_align c) (c_meta c) (c_clock c)) = call_psi c.
Proof.
  split; [reflexivity|]. split.
  - unfold status.
    rewrite session_history_length, session_alerts_length, session_threshold.
    rewrite session_snoc, update_call_snapshots, last_snoc.
    rewrite length_app. reflexivity.
  - unfold update. destruct (Qlt_bool _ _); reflexivity.
Qed.

Lemma session_logs_are_append_only_witness :
  exists s,
    snapshots (session (new 0.05 100) (take 2 demo_calls)) !! 1 = Some s /\
    snapshots (session (new 0.05 100) (take 2 demo_calls ++ drop 2 demo_calls))
      !! 1 = Some s.
Proof.
  eexists. split; [vm_compute; reflexivity|].
  apply (session_logs_are_append_only (new 0.05 100) (take 2 demo_calls)
           (drop 2 demo_calls)).
  vm_compute. reflexivity.
Defined.

(** *** One weak component *)

Lemma product_le_each e i o p :
  (0 <= e <= 1)%Q -> (0 <= i <= 1)%Q -> (0 <= o <= 1)%Q -> (0 <= p <= 1)%Q ->
  (e * i * o * p <= e)%Q /\ (e * i * o * p <= i)%Q /\
  (e * i * o * p <= o)%Q /\ (e * i * o * p <= p)%Q.
Proof.
  intros [He0 He1] [Hi0 Hi1] [Ho0 Ho1] [Hp0 Hp1].
  assert (Hei : (0 <= e * i <= 1)%Q) by (split; nra).
  assert (Hop : (0 <= o * p <= 1)%Q) by (split; nra).
  assert (Hio : (0 <= i * o <= 1)%Q) by (split; nra).
  assert (Heio : (0 <= e * i * o <= 1)%Q) by (split; nra).
  assert (Hiop : (0 <= i * (o * p) <= 1)%Q) by (split; nra).
  repeat split.
  - assert (Hx : (e * i * o * p == e * (i * (o * p)))%Q) by ring.
    rewrite Hx. nra.
  - assert (Hx : (e * i * o * p == i * (e * (o * p)))%Q) by ring.
    assert ((0 <= e * (o * p) <= 1)%Q) by (split; nra).
    rewrite Hx. nra.
  - assert (Hx : (e * i * o * p == o * (e * i * p))%Q) by ring.
    assert ((0 <= e * i * p <= 1)%Q) by (split; nra).
    rewrite Hx. nra.
  - nra.
Qed.

(** X14.  One weak component is enough: when the four components of a
    call lie in [0,1], psi is no larger than any of them, so a component
    below the threshold makes [update] record an alert, however high the
    other three are. *)
Theorem weak_component_alerts (self : PsiMonitor) (c : Call) :
  (0 <= c_E c <= 1)%Q -> (0 <= c_I c <= 1)%Q ->
  (0 <= c_O c <= 1)%Q -> (0 <= c_P_align c <= 1)%Q ->
  ((c_E c < threshold self)%Q \/ (c_I c < threshold self)%Q \/
   (c_O c < threshold self)%Q \/ (c_P_align c < threshold self)%Q) ->
  (call_psi c <= c_E c)%Q /\ (call_psi c <= c_I c)%Q /\
  (call_psi c <= c_O c)%Q /\ (call_psi c <= c_P_align c)%Q /\
  alerts (update_call self c) =
    alerts self ++
    [ mkAlertRecord (datetime_now (c_clock c)) (level_of (call_psi c))
        (call_psi c) (c_E c) (c_I c) (c_O c) (c_P_align c) (c_text c) ].
Proof.
  intros He Hi Ho Hp Hweak.
  destruct (product_le_each _ _ _ _ He Hi Ho Hp) as (H1 & H2 & H3 & H4).
  fold (call_psi c) in H1, H2, H3, H4.
  repeat split; try assumption.
  rewrite update_call_alerts.
  assert (Hlt : Qlt_bool (call_psi c) (threshold self) = true).
  { apply Qlt_bool_iff. destruct Hweak as [H|[H|[H|H]]]; lra. }
  rewrite Hlt. reflexivity.
Qed.

Lemma weak_component_alerts_witness :
  length (alerts (update_call (new 0.05 100)
            (mkCall "low purpose" 0.9 0.9 0.9 0.04 None (mkClock 101 "t")))) = 1.
Proof.
  destruct (weak_component_alerts (new 0.05 100)
              (mkCall "low purpose" 0.9 0.9 0.9 0.04 None (mkClock 101 "t")))
    as (_ & _ & _ & _ & H).
  - split; vm_compute; discriminate.
  - split; vm_compute; discriminate.
  - split; vm_compute; discriminate.
  - split; vm_compute; discriminate.
  - right. right. right. vm_compute. reflexivity.
  - rewrite H. reflexivity.
Defined.

End MonitorFacts.

(** ** The coherence metric *)

Section EngineFacts.

Import Engine.

Local Open Scope Q_scope.

Lemma out_of_unit_false x : out_of_unit x = false <-> in_unit x.
Proof.
  unfold out_of_unit, in_unit.
  rewrite negb_false_iff, andb_true_iff, !Qle_bool_iff.
  assert (H0 : 0.0 == 0) by reflexivity.
  assert (H1 : 1.0 == 1) by reflexivity.
  rewrite H0, H1. reflexivity.
Qed.

Lemma out_of_unit_true x : out_of_unit x = true <-> ~ in_unit x.
Proof.
  rewrite <- out_of_unit_false. destruct (out_of_unit x); intuition congruence.
Qed.

Lemma mult_in_unit x y : in_unit x -> in_unit y -> in_unit (x * y).
Proof. unfold in_unit. intros [Hx0 Hx1] [Hy0 Hy1]. split; nra. Qed.

Lemma product_in_unit e i o p :
  in_unit e -> in_unit i -> in_unit o -> in_unit p -> in_unit (e * i * o * p).
Proof. intros He Hi Ho Hp. repeat apply mult_in_unit; assumption. Qed.

Lemma product_zero e i o p :
  e == 0 \/ i == 0 \/ o == 0 \/ p == 0 -> e * i * o * p == 0.
Proof. intros [H|[H|[H|H]]]; rewrite H; ring. Qed.

Lemma first_invalid_none fields :
  first_invalid fields = None <-> Forall (fun f => in_unit (snd f)) fields.
Proof.
  induction fields as [|[name val] rest IH]; simpl.
  - split; [constructor | reflexivity].
  - destruct (out_of_unit val) eqn:Hv.
    + split; [discriminate|]. intros H. inversion H as [|? ? Hin _]; subst.
      apply out_of_unit_true in Hv. contradiction.
    + apply out_of_unit_false in Hv. rewrite IH. split.
      * intros H. constructor; assumption.
      * intros H. inversion H; assumption.
Qed.

Lemma first_invalid_some fields name val :
  first_invalid fields = Some (mkValueError name val) ->
  In (name, val) fields /\ ~ in_unit val.
Proof.
  induction fields as [|[n v] rest IH]; simpl; [discriminate|].
  destruct (out_of_unit v) eqn:Hv.
  - intros H. injection H as -> ->. apply out_of_unit_true in Hv.
    split; [left; reflexivity | exact Hv].
  - intros H. destruct (IH H) as [Hin Hout]. split; [right|]; assumption.
Qed.

(** C7.  When the four components lie in [0,1], the constructor returns
    the scene with the components as given, its psi, the product of the
    four, lies in [0,1] and is 0 as soon as one component is 0; the psi
    computed by [PsiMonitor.update] is the same product.  When a component
    lies outside [0,1], the constructor raises [ValueError] for a
    component that is out of range and returns no scene: nothing is
    clamped. *)
Theorem scene_psi_in_unit_or_rejected (scene_number : Z) (timestamp : Q)
    (title : string) (e i o p : Q) (characters : option (list string))
    (location notes : string) :
  (in_unit e /\ in_unit i /\ in_unit o /\ in_unit p ->
   exists s,
     Scene_new scene_number timestamp title e i o p characters location notes
       = inr s /\
     energy s = e /\ information s = i /\ order s = o /\ p_align s = p /\
     calculate_psi s = e * i * o * p /\
     0 <= calculate_psi s <= 1 /\
     (e == 0 \/ i == 0 \/ o == 0 \/ p == 0 -> calculate_psi s == 0) /\
     (forall self txt meta clk,
        snd (Monitor.update self txt e i o p meta clk) = calculate_psi s)) /\
  (~ (in_unit e /\ in_unit i /\ in_unit o /\ in_unit p) ->
   exists name val,
     Scene_new scene_number timestamp title e i o p characters location notes
       = inl (mkValueError name val) /\
     In (name, val)
        [ ("energy", e); ("information", i); ("order", o); ("p_align", p) ]%string /\
     ~ in_unit val).
Proof.
  unfold Scene_new, __post_init__.
  cbn [energy information order p_align].
  destruct (first_invalid _) as [[name val]|] eqn:Hf.
  - split.
    + intros (He & Hi & Ho & Hp). exfalso.
      assert (Hnone : first_invalid
                [ ("energy", e); ("information", i); ("order", o);
                  ("p_align", p) ]%string = None).
      { apply first_invalid_none.
        repeat (constructor; [assumption|]). constructor. }
      rewrite Hnone in Hf. discriminate.
    + intros _. exists name, val. split; [reflexivity|].
      apply first_invalid_some, Hf.
  - apply first_invalid_none in Hf.
    inversion Hf as [|? ? He Hf1]; subst.
    inversion Hf1 as [|? ? Hi Hf2]; subst.
    inversion Hf2 as [|? ? Ho Hf3]; subst.
    inversion Hf3 as [|? ? Hp _]; subst.
    simpl in He, Hi, Ho, Hp. split.
    + intros _. eexists. split; [reflexivity|].
      unfold calculate_psi. cbn [energy information order p_align].
      destruct (product_in_unit e i o p He Hi Ho Hp) as [Hlo Hhi].
      repeat split; try reflexivity.
      * exact Hlo.
      * exact Hhi.
      * apply product_zero.
      * intros self txt meta clk. unfold Monitor.update.
        destruct (Qlt_bool _ _); reflexivity.
    + intros Hnot. exfalso. apply Hnot.
      exact (conj He (conj Hi (conj Ho Hp))).
Qed.

Lemma scene_psi_in_unit_or_rejected_witness :
  (exists s,
     Scene_new 1 0 "Opening" 0.4 0.8 0.9 0.7 None "" "" = inr s /\
     0 <= calculate_psi s <= 1) /\
  (exists name val,
     Scene_new 2 10 "Crisis" 0.9 1.4 0.3 0.2 None "" ""
       = inl (mkValueError name val) /\
     ~ in_unit val).
Proof.
  split.
  - destruct (scene_psi_in_unit_or_rejected 1 0 "Opening" 0.4 0.8 0.9 0.7
                None "" "") as [H _].
    destruct H as (s & Hs & _ & _ & _ & _ & _ & Hu & _).
    + unfold in_unit. repeat split; vm_compute; discriminate.
    + exists s. split; [exact Hs | exact Hu].
  - destruct (scene_psi_in_unit_or_rejected 2 10 "Crisis" 0.9 1.4 0.3 0.2
                None "" "") as [_ H].
    destruct H as (name & val & Hs & _ & Hv).
    + unfold in_unit. intros (_ & [_ Hi] & _). vm_compute in Hi.
      apply Hi. reflexivity.
    + exists name, val. split; [exact Hs | exact Hv].
Defined.

(** *** Emotion bands *)

Ltac band_cases rate :=
  repeat (cbn [andb];
          match goal with
          | |- context [Qle_bool ?a rate] =>
              let H := fresh "H" in
              destruct (Qle_bool a rate) eqn:H;
              [apply Qle_bool_iff in H | apply Qle_bool_false_iff in H]
          | |- context [Qlt_bool rate ?a] =>
              let H := fresh "H" in
              destruct (Qlt_bool rate a) eqn:H;
              [apply Qlt_bool_iff in H | apply Qlt_bool_false_iff in H]
          end);
  cbn [andb].

(** X15.  [_classify] sorts every rate into exactly one of the seven
    bands, by the bounds of [EMOTION_BANDS], and never answers
    "Unknown": Transcendence from 0.7 up, Resolve on [0.4, 0.7), Hope on
    [0.08, 0.4), Stable on [-0.1, 0.08), Fear on [-0.4, -0.1), Despair on
    [-0.7, -0.4) and Collapse below -0.7. *)
Theorem classify_covers_every_rate (rate : Q) :
  _classify rate <> "Unknown"%string /\
  (_classify rate = "Transcendence"%string <-> 0.7 <= rate) /\
  (_classify rate = "Resolve"%string <-> 0.4 <= rate /\ rate < 0.7) /\
  (_classify rate = "Hope"%string <-> 0.08 <= rate /\ rate < 0.4) /\
  (_classify rate = "Stable"%string <-> -0.1 <= rate /\ rate < 0.08) /\
  (_classify rate = "Fear"%string <-> -0.4 <= rate /\ rate < -0.1) /\
  (_classify rate = "Despair"%string <-> -0.7 <= rate /\ rate < -0.4) /\
  (_classify rate = "Collapse"%string <-> rate < -0.7).
Proof.
  unfold _classify, EMOTION_BANDS, classify_in, bound_le, lt_bound.
  band_cases rate.
  all: repeat split; intros; try discriminate; try reflexivity; try lra;
    try (exfalso; lra).
Qed.

(** X16.  The two flag columns of the engine and the monitor's alert
    levels fit together: a row is never both a collapse and a dark night;
    every psi below 0.05, where a monitor with the default threshold
    alerts, is one or the other; a collapse is exactly a psi for which
    the monitor's alert level is EXTREME; and the dark-night band also
    holds the value 0.05 itself, on which that monitor does not alert. *)
Theorem dark_night_and_collapse_flags (psi : Q) :
  (collapse psi = true -> dark_night psi = false) /\
  (psi < 0.05 -> collapse psi = true \/ dark_night psi = true) /\
  (collapse psi = true <-> Monitor.level_of psi = "EXTREME"%string) /\
  (dark_night psi = true <-> 0.005 <= psi /\ psi <= 0.05) /\
  (dark_night psi = true /\ ~ psi < 0.05 <-> psi == 0.05).
Proof.
  unfold collapse, dark_night, Monitor.level_of, DARK_MIN, DARK_MAX.
  destruct (Qlt_bool psi 0.005) eqn:H1;
    [apply Qlt_bool_iff in H1 | apply Qlt_bool_false_iff in H1];
    (destruct (Qle_bool 0.005 psi) eqn:H2;
     [apply Qle_bool_iff in H2 | apply Qle_bool_false_iff in H2]);
    (destruct (Qle_bool psi 0.05) eqn:H3;
     [apply Qle_bool_iff in H3 | apply Qle_bool_false_iff in H3]);
    (destruct (Qlt_bool psi 0.02) eqn:H4;
     [apply Qlt_bool_iff in H4 | apply Qlt_bool_false_iff in H4]);
    cbn [andb]; try (exfalso; lra).
  all: repeat split; intros; try discriminate; try reflexivity;
    try tauto; try lra;
    try (match goal with H : _ /\ _ |- _ => destruct H end);
    try discriminate; try lra; try (exfalso; lra).
  all: try (right; reflexivity); try (left; reflexivity).
Qed.

Lemma dark_night_and_collapse_flags_witness :
  dark_night 0.05 = true /\ ~ 0.05 < 0.05.
Proof.
  apply (dark_night_and_collapse_flags 0.05). reflexivity.
Defined.

End EngineFacts.

(** ** The gateway client *)

Section GatewayFacts.

Import Gateway.

Lemma reverse_onto_twice s acc tail :
  reverse_onto (reverse_onto s acc) tail = reverse_onto acc (s ++ tail)%string.
Proof.
  revert acc tail. induction s as [|c s IH]; intros acc tail.
  - reflexivity.
  - simpl. rewrite IH. reflexivity.
Qed.

Lemma append_empty_r (s : string) : (s ++ "")%string = s.
Proof.
  induction s as [|c s IH]; [reflexivity|].
  change (String c s ++ "")%string with (String c (s ++ ""))%string.
  rewrite IH. reflexivity.
Qed.

Lemma reverse_involutive s : reverse (reverse s) = s.
Proof.
  unfold reverse. rewrite reverse_onto_twice. simpl. apply append_empty_r.
Qed.

Lemma reverse_onto_length s acc :
  String.length (reverse_onto s acc) = (String.length s + String.length acc)%nat.
Proof.
  revert acc. induction s as [|c s IH]; intros acc.
  - reflexivity.
  - simpl. rewrite IH. simpl. lia.
Qed.

(** X20.  What [send_alert] writes can be read back: the log grows by
    one line, the reversed JSON text of a package that carries the alert
    as given with [human_required=True] and [autonomous_action=False];
    reversing that line again gives the JSON text, of the same length.
    The receipt has status RECEIVED, [human_required=True] and the
    gateway id of the package, and neither the log nor the receipt
    depends on [gateway_url] or [encryption_key]. *)
Theorem send_alert_log_reads_back (Alert : Type)
    (json_dumps : Package Alert -> string) (self : SafetyGatewayClient)
    (log : string) (alert : Alert) (uuid4 utcnow : string) :
  exists package,
    fst (send_alert Alert json_dumps self log alert uuid4 utcnow) =
      (log ++ _encrypt Alert json_dumps self package
           ++ String (ascii_of_nat 10) "")%string /\
    reverse (_encrypt Alert json_dumps self package) = json_dumps package /\
    String.length (_encrypt Alert json_dumps self package) =
      String.length (json_dumps package) /\
    payload Alert package = alert /\
    human_required Alert package = true /\
    autonomous_action Alert package = false /\
    gateway_id Alert package = ("GW-" ++ uuid4)%string /\
    snd (send_alert Alert json_dumps self log alert uuid4 utcnow) =
      mkReceipt "RECEIVED" utcnow ("GW-" ++ uuid4)%string true /\
    (forall url key,
       send_alert Alert json_dumps
         (mkSafetyGatewayClient url key (local_log self)) log alert uuid4 utcnow
       = send_alert Alert json_dumps self log alert uuid4 utcnow).
Proof.
  eexists. split; [reflexivity|].
  unfold _encrypt. split; [apply reverse_involutive|].
  split; [unfold reverse; rewrite reverse_onto_length; simpl; lia|].
  repeat split; reflexivity.
Qed.

End GatewayFacts.
